(** * rbf_node: a facade over the host's RBF pose-driver nodes

    Shallow embedding of [scripts/mgear/maya/rigbits/rbf_node.py].

    The Python module is a thin layer over the host application's command
    API ([maya.cmds], imported as [mc]).  The embedding has three layers:

    - [Py]: the fragment of Python the module relies on (exceptions,
      [try]/[except], [str.format], [str.endswith], [str.replace]);
    - [mc]: a model of the host commands the module calls, over an explicit
      scene (nodes by name, each with a type, a parent and attributes);
    - [rbf_node] and [RBFNode]: the module's functions and its class,
      translated statement by statement on top of the two layers above. *)

From Stdlib Require Import Ascii String QArith.Qcanon.
From stdpp Require Import base option list strings pretty countable gmap fin_maps.

(** ** Python fragment *)

Module Py.

(** The exception classes that occur in the module or are raised by the
    host commands it calls. *)
Inductive exn : Type :=
| IndexError
| KeyError
| NotImplementedError
| RuntimeError
| TypeError
| ValueError.

#[global] Instance exn_eq_dec : EqDecision exn.
Proof. solve_decision. Defined.

(** [isinstance e cls]: an [except cls] clause catches [e].  In Python
    [NotImplementedError] derives from [RuntimeError]; the other classes
    above are unrelated to each other. *)
Definition isinstance (e cls : exn) : bool :=
  match e, cls with
  | NotImplementedError, RuntimeError => true
  | _, _ => bool_decide (e = cls)
  end.

(** Outcome of evaluating a Python expression or call. *)
Inductive result (A : Type) : Type :=
| Ok (v : A)
| Raise (e : exn).
Arguments Ok {A} v.
Arguments Raise {A} e.

(** The values that flow through the module: [None], strings, floats. *)
Inductive pyval : Type :=
| PyNone
| PyStr (s : string)
| PyFloat (x : Qc).

#[global] Instance pyval_eq_dec : EqDecision pyval.
Proof. solve_decision. Defined.

#[global] Instance pyval_countable : Countable pyval.
Proof.
  refine (inj_countable'
    (fun v => match v with
              | PyNone => inl ()
              | PyStr s => inr (inl s)
              | PyFloat x => inr (inr x)
              end)
    (fun c => match c with
              | inl _ => PyNone
              | inr (inl s) => PyStr s
              | inr (inr x) => PyFloat x
              end) _).
  intros []; reflexivity.
Defined.

(** Computations over a mutable state [St] that may raise.  The state is
    returned on both outcomes: an exception does not undo earlier effects. *)
Definition M (St A : Type) : Type := St -> result A * St.

Definition ret {St A} (v : A) : M St A := fun s => (Ok v, s).

Definition raise {St A} (e : exn) : M St A := fun s => (Raise e, s).

Definition bind {St A B} (m : M St A) (k : A -> M St B) : M St B :=
  fun s =>
    match m s with
    | (Ok v, s') => k v s'
    | (Raise e, s') => (Raise e, s')
    end.

(** [try: body  except cls: handler]. *)
Definition try_except {St A} (body : M St A) (cls : exn) (handler : M St A)
  : M St A :=
  fun s =>
    match body s with
    | (Ok v, s') => (Ok v, s')
    | (Raise e, s') =>
        if isinstance e cls then handler s' else (Raise e, s')
    end.

(** A pure Python operation that may raise, used inside a computation. *)
Definition lift {St A} (r : result A) : M St A := fun s => (r, s).

(** An expression statement that builds an exception object and drops it:
    [SomeError()] without [raise]. *)
Definition new_exn {St} (e : exn) : M St exn := ret e.

(** Truthiness, as used by [if x], [not x] and [x or y]. *)
Class Truthy (A : Type) := truthy : A -> bool.

#[global] Instance truthy_bool : Truthy bool := fun b => b.
#[global] Instance truthy_list {A} : Truthy (list A) :=
  fun l => match l with [] => false | _ :: _ => true end.
#[global] Instance truthy_option {A} `{Truthy A} : Truthy (option A) :=
  fun o => match o with None => false | Some x => truthy x end.

Definition or_ {A} `{Truthy A} (x y : A) : A := if truthy x then x else y.

(** [l[0]] on a list, and on a value that is a list or [None]. *)
Definition item0 {A} (l : list A) : result A :=
  match l with
  | x :: _ => Ok x
  | [] => Raise IndexError
  end.

Definition item0_of {A} (o : option (list A)) : result A :=
  match o with
  | Some l => item0 l
  | None => Raise TypeError
  end.

(** A dict with values of type [V]: [d[k]] and [d.pop(k)]. *)
Definition getitem {V} (d : gmap pyval V) (k : pyval) : result V :=
  match d !! k with
  | Some v => Ok v
  | None => Raise KeyError
  end.

Definition pop {V} (d : gmap pyval V) (k : pyval) : result (V * gmap pyval V) :=
  match d !! k with
  | Some v => Ok (v, delete k d)
  | None => Raise KeyError
  end.

(** [[x for x in l if cond(x)]] *)
Fixpoint comprehension_if {St A} (l : list A) (cond : A -> M St bool)
  : M St (list A) :=
  match l with
  | [] => ret []
  | x :: l' =>
      bind (cond x) (fun b =>
      bind (comprehension_if l' cond) (fun r =>
      ret (if b then x :: r else r)))
  end.

(** [template.format(a1, ..., an)] for templates whose only replacement fields
    are automatically numbered [{}] fields, which is how the module uses
    it.  A field with no argument left raises [IndexError]; arguments that
    are left over are ignored. *)
Fixpoint format (template : string) (args : list string) : result string :=
  match template with
  | EmptyString => Ok EmptyString
  | String "{"%char (String "}"%char rest) =>
      match args with
      | [] => Raise IndexError
      | a :: args' =>
          match format rest args' with
          | Ok r => Ok (a +:+ r)
          | Raise e => Raise e
          end
      end
  | String c rest =>
      match format rest args with
      | Ok r => Ok (String c r)
      | Raise e => Raise e
      end
  end.

(** [s.startswith(p)] and [s.endswith(p)]. *)
Fixpoint startswith (s p : string) : bool :=
  match p, s with
  | EmptyString, _ => true
  | String a p', String b s' => if Ascii.eqb a b then startswith s' p' else false
  | String _ _, EmptyString => false
  end.

Definition endswith (s p : string) : bool :=
  startswith (String.rev s) (String.rev p).

(** [s.replace(old, new)] for a non-empty [old]: occurrences are replaced
    from left to right without overlap.  [skip] counts the characters of an
    occurrence that was just replaced and still have to be dropped. *)
Fixpoint replace_from (old new s : string) (skip : nat) : string :=
  match s with
  | EmptyString => EmptyString
  | String c s' =>
      match skip with
      | S k => replace_from old new s' k
      | O =>
          if startswith s old
          then new +:+ replace_from old new s' (String.length old - 1)
          else String c (replace_from old new s' 0)
      end
  end.

Definition replace (s old new : string) : string := replace_from old new s 0.

(** Iterating over a value that is a list or [None], and the test
    [x in v] on such a value: both raise [TypeError] on [None]. *)
Definition iter_of {A} (o : option (list A)) : result (list A) :=
  match o with
  | Some l => Ok l
  | None => Raise TypeError
  end.

Definition contains (o : option (list string)) (x : string) : result bool :=
  match o with
  | Some l => Ok (bool_decide (x ∈ l))
  | None => Raise TypeError
  end.

(** [for x in l: body(x)] *)
Fixpoint for_each {St A} (l : list A) (body : A -> M St pyval) : M St pyval :=
  match l with
  | [] => ret PyNone
  | x :: l' => bind (body x) (fun _ => for_each l' body)
  end.

(** [l.index(x)] *)
Fixpoint index (l : list string) (x : string) : result nat :=
  match l with
  | [] => Raise ValueError
  | y :: l' =>
      if bool_decide (y = x) then Ok 0
      else match index l' x with
           | Ok i => Ok (S i)
           | Raise e => Raise e
           end
  end.

(** [l[i]] *)
Definition item {A} (l : list A) (i : nat) : result A :=
  match l !! i with
  | Some x => Ok x
  | None => Raise IndexError
  end.

(** [str(v)] for a value that is a string or [None]. *)
Definition str_of (o : option string) : string :=
  match o with
  | None => "None"
  | Some v => v
  end.

End Py.

Export Py.

Declare Scope py_scope.
Delimit Scope py_scope with py.
Notation "x <- c ;; k" := (bind c (fun x => k))
  (at level 100, c at next level, right associativity) : py_scope.
Notation "c ;;; k" := (bind c (fun _ => k))
  (at level 100, right associativity) : py_scope.
Local Open Scope py_scope.

(** ** The host scene and the commands of [maya.cmds] the module calls

    The host is not part of the repository.  The model below keeps what the
    module can observe of it: which nodes exist, their type, their parent,
    and the attributes they carry.  The exceptions are those the module's
    own handlers name: a command given a name that matches no object raises
    [ValueError]; [addAttr] on a node that already has the attribute raises
    [RuntimeError]; [setAttr] reports each of its failures as
    [RuntimeError]. *)

(** An attribute with its current value.  A string attribute that was
    never assigned holds no data and reads as [None]. *)
Inductive attr : Type :=
| AFloat (v : Qc)
| AString (v : option string).

Record scene_node : Type := mkNode {
  ntype : string;
  nparent : option string;
  nattrs : gmap string attr
}.

Abbreviation scene := (gmap string scene_node).

(** Declaration flags of [addAttr]: [at="float", dv, min, max, k] or
    [dt="string"].  The range and the keyable flag are not observed by the
    module and are not stored. *)
Inductive attr_decl : Type :=
| AtFloat (dv min max : Qc) (k : bool)
| DtString.

Definition attr_default (d : attr_decl) : attr :=
  match d with
  | AtFloat dv _ _ _ => AFloat dv
  | DtString => AString None
  end.

Definition attr_value (a : attr) : pyval :=
  match a with
  | AFloat v => PyFloat v
  | AString None => PyNone
  | AString (Some v) => PyStr v
  end.

(** A plug ["node.attr"] is split at its first dot: node names contain
    none. *)
Fixpoint split_plug (plug : string) : option (string * string) :=
  match plug with
  | EmptyString => None
  | String c rest =>
      if Ascii.eqb c "."%char then Some (EmptyString, rest)
      else match split_plug rest with
           | Some (n, a) => Some (String c n, a)
           | None => None
           end
  end.

Definition valid_name (name : string) : bool :=
  match split_plug name with None => true | Some _ => false end.

(** The node and the attribute a plug denotes in a scene. *)
Definition resolve (s : scene) (plug : string)
  : option (string * scene_node * string * attr) :=
  match split_plug plug with
  | None => None
  | Some (n, a) =>
      match s !! n with
      | None => None
      | Some nd =>
          match nattrs nd !! a with
          | None => None
          | Some v => Some (n, nd, a, v)
          end
      end
  end.

Definition set_attr (nd : scene_node) (a : string) (v : attr) : scene_node :=
  mkNode (ntype nd) (nparent nd) (<[a := v]> (nattrs nd)).

Definition del_attr (nd : scene_node) (a : string) : scene_node :=
  mkNode (ntype nd) (nparent nd) (delete a (nattrs nd)).

Definition set_parent (nd : scene_node) (p : option string) : scene_node :=
  mkNode (ntype nd) p (nattrs nd).

(** A name for a new node: the requested one when it is free, else the
    requested one followed by the first number that makes it free. *)
Definition fresh_name (s : scene) (name : string) : option string :=
  match s !! name with
  | None => Some name
  | Some _ =>
      match list_find (fun k => bool_decide (s !! (name +:+ pretty k) = None))
                      (seq 1 (S (size s))) with
      | Some (_, k) => Some (name +:+ pretty k)
      | None => None
      end
  end.

(** [under s fuel target n]: [n] is [target] or lies below it in the
    hierarchy, following at most [fuel] parent links. *)
Fixpoint under (s : scene) (fuel : nat) (target n : string) : bool :=
  if bool_decide (n = target) then true
  else match fuel with
       | O => false
       | S fuel' =>
           match s !! n with
           | Some nd =>
               match nparent nd with
               | Some p => under s fuel' target p
               | None => false
               end
           | None => false
           end
       end.

Module mc.

(** [mc.objExists(name)] *)
Definition objExists (name : string) : M scene bool :=
  fun s => (Ok (bool_decide (is_Some (s !! name))), s).

(** [mc.nodeType(name)] *)
Definition nodeType (name : string) : M scene string :=
  fun s =>
    match s !! name with
    | Some nd => (Ok (ntype nd), s)
    | None => (Raise ValueError, s)
    end.

(** [mc.ls(type=types)]: the names of the nodes whose type is listed. *)
Definition ls (types : list string) : M scene (list string) :=
  fun s =>
    (Ok (filter (fun kv => ntype (snd kv) ∈ types) (map_to_list s)).*1, s).

(** [mc.listRelatives(node, p=True)]: [None] for a node without parent. *)
Definition listRelatives_p (name : string) : M scene (option (list string)) :=
  fun s =>
    match s !! name with
    | None => (Raise ValueError, s)
    | Some nd =>
        match nparent nd with
        | None => (Ok None, s)
        | Some p => (Ok (Some [p]), s)
        end
    end.

(** [mc.group(name=name, p=p, em=True)]: a new empty transform under [p];
    returns the name it was given. *)
Definition group (name p : string) : M scene string :=
  fun s =>
    match s !! p with
    | None => (Raise ValueError, s)
    | Some _ =>
        match fresh_name s name with
        | None => (Raise RuntimeError, s)
        | Some n => (Ok n, <[n := mkNode "transform" (Some p) ∅]> s)
        end
    end.

(** [mc.parent(child, newParent)]: refuses a node that already is a child
    of [newParent]. *)
Definition parent (child newParent : string) : M scene (list string) :=
  fun s =>
    match s !! child, s !! newParent with
    | Some nd, Some _ =>
        if bool_decide (nparent nd = Some newParent)
        then (Raise RuntimeError, s)
        else (Ok [child], <[child := set_parent nd (Some newParent)]> s)
    | _, _ => (Raise ValueError, s)
    end.

(** [mc.attributeQuery(a, n=name, ex=True)] *)
Definition attributeQuery_ex (a name : string) : M scene bool :=
  fun s =>
    match s !! name with
    | None => (Raise ValueError, s)
    | Some nd => (Ok (bool_decide (is_Some (nattrs nd !! a))), s)
    end.

(** [mc.addAttr(name, ln=ln, ...)] *)
Definition addAttr (name ln : string) (d : attr_decl) : M scene pyval :=
  fun s =>
    match s !! name with
    | None => (Raise ValueError, s)
    | Some nd =>
        match nattrs nd !! ln with
        | Some _ => (Raise RuntimeError, s)
        | None => (Ok PyNone, <[name := set_attr nd ln (attr_default d)]> s)
        end
    end.

(** [mc.deleteAttr(plug)] *)
Definition deleteAttr (plug : string) : M scene pyval :=
  fun s =>
    match resolve s plug with
    | None => (Raise ValueError, s)
    | Some (n, nd, a, _) => (Ok PyNone, <[n := del_attr nd a]> s)
    end.

(** [mc.getAttr(plug)] *)
Definition getAttr (plug : string) : M scene pyval :=
  fun s =>
    match resolve s plug with
    | None => (Raise ValueError, s)
    | Some (_, _, _, v) => (Ok (attr_value v), s)
    end.

(** [mc.setAttr(plug, value, type="string")]: only a string attribute
    takes string data. *)
Definition setAttr_string (plug value : string) : M scene pyval :=
  fun s =>
    match resolve s plug with
    | None => (Raise RuntimeError, s)
    | Some (n, nd, a, AString _) =>
        (Ok PyNone, <[n := set_attr nd a (AString (Some value))]> s)
    | Some (_, _, _, AFloat _) => (Raise RuntimeError, s)
    end.

(** [mc.listRelatives(name, type=type)]: the children of that type,
    [None] when there is none. *)
Definition listRelatives_type (name type : string)
  : M scene (option (list string)) :=
  fun s =>
    match s !! name with
    | None => (Raise ValueError, s)
    | Some _ =>
        let l := (filter (fun kv => nparent (snd kv) = Some name /\
                                    ntype (snd kv) = type)
                         (map_to_list s)).*1 in
        (Ok (if truthy l then Some l else None), s)
    end.

(** [mc.parent(child, w=True)]: refuses a node that already is a child of
    the world. *)
Definition parent_w (child : string) : M scene (list string) :=
  fun s =>
    match s !! child with
    | Some nd =>
        if bool_decide (nparent nd = None)
        then (Raise RuntimeError, s)
        else (Ok [child], <[child := set_parent nd None]> s)
    | None => (Raise ValueError, s)
    end.

(** [mc.delete(name)]: the node goes with everything below it. *)
Definition delete (name : string) : M scene pyval :=
  fun s =>
    match s !! name with
    | None => (Raise ValueError, s)
    | Some _ =>
        (Ok PyNone,
         filter (fun kv => under s (size s) name (fst kv) = false) s)
    end.

End mc.

(** ** The module's constants and functions *)

Module rbf_node.

Definition DRIVEN_SUFFIX : string := "_driven".
Definition CTL_SUFFIX : string := "_ctl".
Definition TRANSFORM_SUFFIX : string := "_trfm".

Definition RBF_SETUP_ATTR : string := "rbf_setup_name".

Definition SUPPORTED_RBF_NODES : list string := ["weightDriver"].

Definition GENERIC_SUFFIX : string := "_RBF".

Definition DRIVER_CTL_ATTR_NAME : string := "driverControlName".
Definition DRIVER_POSES_ATTR : string := "driverPoses".
Definition DRIVER_POSEINPUT_ATTR : string := "poseInput".

Definition RBF_SCALE_ATTR : string := "RBF_Multiplier".

Definition addDrivenGroup (node : string) : M scene string :=
  r <- mc.listRelatives_p node ;;
  let parentOfTarget := or_ r None in
  if negb (truthy parentOfTarget) then ret node
  else
    drivenName <- (if endswith node CTL_SUFFIX
                   then ret (replace node CTL_SUFFIX DRIVEN_SUFFIX)
                   else lift (format "{}{}" [DRIVEN_SUFFIX])) ;;
    p0 <- lift (item0_of parentOfTarget) ;;
    drivenName <- mc.group drivenName p0 ;;
    mc.parent node drivenName ;;;
    ret drivenName.

Definition createRBFToggleAttr (node : string) : M scene pyval :=
  try_except
    (mc.addAttr node RBF_SCALE_ATTR (AtFloat 1 0 1 true))
    RuntimeError
    (ret PyNone) ;;;
  ret PyNone.

Definition deleteRBFToggleAttr (node : string) : M scene pyval :=
  try_except
    (plug <- lift (format "{}.{}" [node; RBF_SCALE_ATTR]) ;;
     mc.deleteAttr plug)
    ValueError
    (ret PyNone) ;;;
  ret PyNone.

Definition createDriverControlAttr (node : string) : M scene pyval :=
  try_except
    (mc.addAttr node DRIVER_CTL_ATTR_NAME DtString)
    RuntimeError
    (ret PyNone) ;;;
  ret PyNone.

Definition getDriverControlAttr (node : string) : M scene pyval :=
  try_except
    (plug <- lift (format "{}.{}" [node; DRIVER_CTL_ATTR_NAME]) ;;
     mc.getAttr plug)
    ValueError
    (ret (PyStr "")).

Definition setDriverControlAttr (node controlName : string) : M scene pyval :=
  ex <- mc.attributeQuery_ex DRIVER_CTL_ATTR_NAME node ;;
  (if negb ex then createDriverControlAttr node else ret PyNone) ;;;
  plug <- lift (format "{}.{}" [node; DRIVER_CTL_ATTR_NAME]) ;;
  mc.setAttr_string plug controlName ;;;
  ret PyNone.

Definition getSceneRBFNodes : M scene (list string) :=
  l <- mc.ls SUPPORTED_RBF_NODES ;;
  ret (or_ l []).

Definition getSceneSetupNodes : M scene (list string) :=
  l <- mc.ls SUPPORTED_RBF_NODES ;;
  let nodes : gset string := list_to_set l in
  comprehension_if (elements nodes)
                   (fun rbf => mc.attributeQuery_ex RBF_SETUP_ATTR rbf).

(** The body of the [for] loop of [getRbfSceneSetupsInfo], over the nodes
    that remain to be visited. *)
Fixpoint setups_loop (nodes : list string)
    (setups_dict : gmap pyval (list string))
  : M scene (gmap pyval (list string)) :=
  match nodes with
  | [] => ret setups_dict
  | rbfNode :: rest =>
      plug <- lift (format "{}.{}" [rbfNode; RBF_SETUP_ATTR]) ;;
      setupName <- mc.getAttr plug ;;
      if bool_decide (setupName = PyStr "") then
        l <- lift (getitem setups_dict (PyStr "empty")) ;;
        setups_loop rest (<[PyStr "empty" := l ++ [rbfNode]]> setups_dict)
      else if bool_decide (is_Some (setups_dict !! setupName)) then
        l <- lift (getitem setups_dict setupName) ;;
        setups_loop rest (<[setupName := l ++ [rbfNode]]> setups_dict)
      else
        setups_loop rest (<[setupName := [rbfNode]]> setups_dict)
  end.

Definition getRbfSceneSetupsInfo (includeEmpty : bool)
  : M scene (gmap pyval (list string)) :=
  let setups_dict : gmap pyval (list string) := {[ PyStr "empty" := [] ]} in
  nodes <- getSceneSetupNodes ;;
  setups_dict <- setups_loop nodes setups_dict ;;
  if negb includeEmpty then
    r <- lift (pop setups_dict (PyStr "empty")) ;;
    ret (snd r)
  else ret setups_dict.

Definition setSetupName (node setupName : string) : M scene pyval :=
  ex <- mc.attributeQuery_ex RBF_SETUP_ATTR node ;;
  (if negb ex then mc.addAttr node RBF_SETUP_ATTR DtString else ret PyNone) ;;;
  plug <- lift (format "{}.{}" [node; RBF_SETUP_ATTR]) ;;
  mc.setAttr_string plug setupName ;;;
  ret PyNone.

Definition getSetupName (node : string) : M scene pyval :=
  ex <- mc.attributeQuery_ex RBF_SETUP_ATTR node ;;
  if negb ex then ret PyNone
  else
    plug <- lift (format "{}.{}" [node; RBF_SETUP_ATTR]) ;;
    mc.getAttr plug.

Definition TRANSLATE_ATTRS : list string :=
  ["translateX"; "translateY"; "translateZ"].

Definition ROTATE_ATTRS : list string := ["rotateX"; "rotateY"; "rotateZ"].

Definition SCALE_ATTRS : list string := ["scaleX"; "scaleY"; "scaleZ"].

Definition removeDrivenGroup (node : string) : M scene pyval :=
  r <- mc.listRelatives_p node ;;
  let parentOfTarget := or_ r None in
  childrenNode <- mc.listRelatives_type node "transform" ;;
  children <- lift (iter_of childrenNode) ;;
  for_each children
    (fun child =>
       match parentOfTarget with
       | None => mc.parent_w child ;;; ret PyNone
       | Some _ =>
           p0 <- lift (item0_of parentOfTarget) ;;
           mc.parent child p0 ;;;
           ret PyNone
       end) ;;;
  mc.delete node ;;;
  ret PyNone.

Section resetDrivenNodes.

(** [transform.resetTransform(pm.PyNode(name))]: the function comes from
    [mgear.maya.transform], outside this file; it is applied to nodes that
    exist, for which [pm.PyNode] is the node of that name. *)
Variable resetTransform : string -> M scene pyval.

Definition resetDrivenNodes (node : string) : M scene pyval :=
  children <- mc.listRelatives_type node "transform" ;;
  let controlNode := replace node DRIVEN_SUFFIX CTL_SUFFIX in
  ex <- mc.objExists controlNode ;;
  isChild <- (if ex then lift (contains children controlNode)
              else ret false) ;;
  (if isChild then resetTransform controlNode else ret PyNone) ;;;
  resetTransform node ;;;
  ret PyNone.

End resetDrivenNodes.

End rbf_node.

(** ** The class [RBFNode] *)

Module RBFNode.

(** The attributes of an instance.  [rbfType] is only assigned when the
    instance wraps an existing node. *)
Record instance : Type := mkInstance {
  name : string;
  transformNode : pyval;
  rbfType : option string
}.

(** Methods run on the scene and on [self]. *)
Record world : Type := mkWorld {
  w_scene : scene;
  w_self : instance
}.

(** A module-level function called from a method. *)
Definition on_scene {A} (m : M scene A) : M world A :=
  fun w =>
    match m (w_scene w) with
    | (r, s') => (r, mkWorld s' (w_self w))
    end.

Definition self_name : M world string :=
  fun w => (Ok (name (w_self w)), w).

Definition set_name (v : string) : M world pyval :=
  fun w =>
    let o := w_self w in
    (Ok PyNone, mkWorld (w_scene w) (mkInstance v (transformNode o) (rbfType o))).

Definition set_transformNode (v : pyval) : M world pyval :=
  fun w =>
    let o := w_self w in
    (Ok PyNone, mkWorld (w_scene w) (mkInstance (name o) v (rbfType o))).

Definition set_rbfType (v : string) : M world pyval :=
  fun w =>
    let o := w_self w in
    (Ok PyNone,
     mkWorld (w_scene w) (mkInstance (name o) (transformNode o) (Some v))).

(** The methods a subclass is meant to override, looked up through [self].
    A value of this type is one class: [base] below is [RBFNode] itself. *)
Record methods : Type := mkMethods {
  create : M world pyval;
  getPoseInfo : M world pyval;
  getNodeInfo : M world pyval;
  lengthenCompoundAttrs : M world pyval;
  addPose : list Qc -> list Qc -> option Z -> M world pyval;
  deletePose : Z -> M world pyval;
  getDriverNode : M world (list string);
  getDriverNodeAttributes : M world (list string);
  getDrivenNode : M world (list string);
  getDrivenNodeAttributes : M world (list string);
  setDriverNode : string -> list string -> M world pyval;
  setDrivenNode : string -> list string -> bool -> M world pyval;
  getTransformParent : M world pyval;
  copyPoses : string -> bool -> M world pyval;
  recallDriverPose : Z -> M world pyval;
  forceEvaluation : M world pyval;
  getRBFToggleAttr : M world pyval
}.

(** The bodies the base class gives to these methods. *)
Definition base : methods := {|
  create := raise NotImplementedError;
  getPoseInfo := raise NotImplementedError;
  getNodeInfo := raise NotImplementedError;
  lengthenCompoundAttrs := ret PyNone;
  addPose := fun poseInput poseValue posesIndex => raise NotImplementedError;
  deletePose := fun indexToPop => raise NotImplementedError;
  getDriverNode := raise NotImplementedError;
  getDriverNodeAttributes := raise NotImplementedError;
  getDrivenNode := raise NotImplementedError;
  getDrivenNodeAttributes := raise NotImplementedError;
  setDriverNode := fun driverNode driverAttrs => raise NotImplementedError;
  setDrivenNode :=
    fun drivenNode drivenAttrs parent => raise NotImplementedError;
  getTransformParent := new_exn NotImplementedError ;;; ret PyNone;
  copyPoses :=
    fun nodeB emptyPoseValues => new_exn NotImplementedError ;;; ret PyNone;
  recallDriverPose :=
    fun poseIndex => new_exn NotImplementedError ;;; ret PyNone;
  forceEvaluation := new_exn NotImplementedError ;;; ret PyNone;
  getRBFToggleAttr := new_exn NotImplementedError ;;; ret PyNone
|}.

(** [RBFNode.__init__(self, name)], with the overridable methods taken
    from the class [cls] of [self]. *)
Definition __init__ (cls : methods) (name : string) : M world pyval :=
  set_name name ;;;
  set_transformNode PyNone ;;;
  ex <- on_scene (mc.objExists name) ;;
  supported <- (if ex
                then t <- on_scene (mc.nodeType name) ;;
                     ret (bool_decide (t ∈ rbf_node.SUPPORTED_RBF_NODES))
                else ret false) ;;
  if supported then
    t <- on_scene (mc.nodeType name) ;;
    set_rbfType t ;;;
    p <- getTransformParent cls ;;
    set_transformNode p ;;;
    lengthenCompoundAttrs cls ;;;
    ret PyNone
  else
    create cls ;;;
    n <- self_name ;;
    on_scene (rbf_node.createDriverControlAttr n) ;;;
    ret PyNone.

(** The object [__init__] receives: none of its attributes is read before
    [__init__] assigns it. *)
Definition blank : instance := mkInstance "" PyNone None.

(** [RBFNode(name)] for the class [cls]. *)
Definition new (cls : methods) (name : string) (s : scene)
  : result pyval * world :=
  __init__ cls name (mkWorld s blank).

Definition getSetupName : M world pyval :=
  n <- self_name ;;
  on_scene (rbf_node.getSetupName n).

Definition setSetupName (setupName : string) : M world pyval :=
  n <- self_name ;;
  on_scene (rbf_node.setSetupName n setupName) ;;;
  ret PyNone.

Definition setDriverControlAttr (controlName : string) : M world pyval :=
  n <- self_name ;;
  on_scene (rbf_node.setDriverControlAttr n controlName) ;;;
  ret PyNone.

Definition getDriverControlAttr (cls : methods) : M world pyval :=
  n <- self_name ;;
  driverControl <- on_scene (rbf_node.getDriverControlAttr n) ;;
  driverControl <- (if bool_decide (driverControl = PyStr "")
                    then l <- getDriverNode cls ;;
                         x <- lift (item0 l) ;;
                         ret (PyStr x)
                    else ret driverControl) ;;
  ret driverControl.

(** [nodeType_suffix] and [formatName].  The base method assigns an
    instance attribute called [nodeType_suffix]; once assigned, it is what
    [self.nodeType_suffix] denotes, in place of the method.  [named] adds
    that attribute to the instance. *)
Record named : Type := mkNamed {
  n_self : instance;
  n_suffix : option string
}.

Definition nodeType_suffix : M named (option string) :=
  fun o => (Ok None, mkNamed (n_self o) (Some rbf_node.GENERIC_SUFFIX)).

(** [formatName] for a class whose method [nodeType_suffix] is [method].
    Calling the attribute when it is a string raises [TypeError]. *)
Definition formatName (method : M named (option string)) : M named string :=
  fun o =>
    let n := name (n_self o) in
    match n_suffix o with
    | Some _ => (Raise TypeError, o)
    | None =>
        (r <- method ;;
         lift (format "{}{}" [n; str_of r])) o
    end.

Section getPoseValues.

(** The host's matrix type and the two module functions that work on it,
    [getDrivenMatrix] and [decompMatrix]; [resetDrivenNodes] with the
    host's reset applied. *)
Variable MMatrix : Type.
Variable getDrivenMatrix : string -> M scene MMatrix.
Variable decompMatrix :
  string -> MMatrix -> M scene (list pyval * list pyval * list pyval).
Variable resetDrivenNodes : string -> M scene pyval.

(** The [for attr in drivenAttrs] loop of [getPoseValues]. *)
Fixpoint pose_loop (drivenNode : string) (trans rotate scale : list pyval)
    (attrs : list string) (attributeValue_dict : gmap string pyval)
  : M world (gmap string pyval) :=
  match attrs with
  | [] => ret attributeValue_dict
  | attr :: rest =>
      v <- (if bool_decide (attr ∈ rbf_node.TRANSLATE_ATTRS) then
              i <- lift (index rbf_node.TRANSLATE_ATTRS attr) ;;
              lift (item trans i)
            else if bool_decide (attr ∈ rbf_node.ROTATE_ATTRS) then
              i <- lift (index rbf_node.ROTATE_ATTRS attr) ;;
              lift (item rotate i)
            else if bool_decide (attr ∈ rbf_node.SCALE_ATTRS) then
              i <- lift (index rbf_node.SCALE_ATTRS attr) ;;
              lift (item scale i)
            else
              nodePlug <- lift (format "{}.{}" [drivenNode; attr]) ;;
              on_scene (mc.getAttr nodePlug)) ;;
      pose_loop drivenNode trans rotate scale rest
                (<[attr := v]> attributeValue_dict)
  end.

(** [[attributeValue_dict[attr] for attr in drivenAttrs]] *)
Fixpoint pose_list (attributeValue_dict : gmap string pyval)
    (attrs : list string) : result (list pyval) :=
  match attrs with
  | [] => Ok []
  | attr :: rest =>
      match attributeValue_dict !! attr with
      | None => Raise KeyError
      | Some v =>
          match pose_list attributeValue_dict rest with
          | Ok r => Ok (v :: r)
          | Raise e => Raise e
          end
      end
  end.

Definition getPoseValues (cls : methods) (resetDriven : bool)
  : M world (list pyval) :=
  let attributeValue_dict : gmap string pyval := ∅ in
  l <- getDrivenNode cls ;;
  drivenNode <- lift (item0 l) ;;
  drivenAttrs <- getDrivenNodeAttributes cls ;;
  m <- on_scene (getDrivenMatrix drivenNode) ;;
  d <- on_scene (decompMatrix drivenNode m) ;;
  let '(trans, rotate, scale) := d in
  attributeValue_dict <-
    pose_loop drivenNode trans rotate scale drivenAttrs attributeValue_dict ;;
  (if resetDriven then on_scene (resetDrivenNodes drivenNode)
   else ret PyNone) ;;;
  lift (pose_list attributeValue_dict drivenAttrs).

End getPoseValues.

End RBFNode.

(** ** Vocabulary for the statements below *)

(** The host keeps node names free of dots. *)
Definition scene_wf (s : scene) : Prop :=
  map_Forall (fun n (_ : scene_node) => valid_name n = true) s.

(** The key of [getRbfSceneSetupsInfo]'s dict a node is filed under, from
    the value [v] of its [rbf_setup_name] attribute. *)
Definition setup_key (v : pyval) : pyval :=
  if bool_decide (v = PyStr "") then PyStr "empty" else v.

(** One more node appended to the list at key [k]; a list is started when
    the key is new. *)
Definition file_under (d : gmap pyval (list string)) (k : pyval) (n : string)
  : gmap pyval (list string) :=
  <[k := default [] (d !! k) ++ [n]]> d.

(** [d] files exactly the nodes [done], each once, under the key [key]
    assigns to it. *)
Definition filed (key : string -> pyval) (done : list string)
    (d : gmap pyval (list string)) : Prop :=
  (forall (k : pyval) (l : list string), d !! k = Some l ->
     NoDup l /\ forall n, n ∈ l -> n ∈ done /\ key n = k)
  /\
  (forall n, n ∈ done ->
     exists l : list string, d !! key n = Some l /\ n ∈ l).

(** Every parent named in the scene is a node of the scene. *)
Definition parents_exist (s : scene) : Prop :=
  map_Forall (fun (_ : string) (nd : scene_node) =>
                forall q, nparent nd = Some q -> is_Some (s !! q)) s.

(** The pose value of one driven attribute: a component of the decomposed
    matrix for the nine transform attributes, [other attr] for any other. *)
Definition pose_value (t r sc : pyval * pyval * pyval)
    (other : string -> pyval) (attr : string) : pyval :=
  let '(tx, ty, tz) := t in
  let '(rx, ry, rz) := r in
  let '(sx, sy, sz) := sc in
  if bool_decide (attr = "translateX") then tx
  else if bool_decide (attr = "translateY") then ty
  else if bool_decide (attr = "translateZ") then tz
  else if bool_decide (attr = "rotateX") then rx
  else if bool_decide (attr = "rotateY") then ry
  else if bool_decide (attr = "rotateZ") then rz
  else if bool_decide (attr = "scaleX") then sx
  else if bool_decide (attr = "scaleY") then sy
  else if bool_decide (attr = "scaleZ") then sz
  else other attr.

(** ** A sample scene

    Two weightDriver nodes with a setup name (one of them empty), one
    without, and a small transform hierarchy. *)

Module Sample.

Definition wd (attrs : gmap string attr) : scene_node :=
  mkNode "weightDriver" None attrs.

Definition xf (p : option string) : scene_node := mkNode "transform" p ∅.

Definition scene0 : scene :=
  <["arm_ctl" := xf (Some "root")]>
  (<["arm" := xf (Some "root")]>
  (<["root" := xf None]>
  (<["wd1" := wd (<["rbf_setup_name" := AString (Some "A")]> ∅)]>
  (<["wd2" := wd (<["rbf_setup_name" := AString (Some "")]> ∅)]>
  (<["wd3" := wd (<["RBF_Multiplier" := AFloat 1]> ∅)]> ∅))))).

(** A subclass that overrides the methods [__init__] and
    [getDriverControlAttr] call. *)
Definition sub : RBFNode.methods := {|
  RBFNode.create := ret PyNone;
  RBFNode.getPoseInfo := RBFNode.getPoseInfo RBFNode.base;
  RBFNode.getNodeInfo := RBFNode.getNodeInfo RBFNode.base;
  RBFNode.lengthenCompoundAttrs := ret PyNone;
  RBFNode.addPose := RBFNode.addPose RBFNode.base;
  RBFNode.deletePose := RBFNode.deletePose RBFNode.base;
  RBFNode.getDriverNode := ret ["arm_ctl"];
  RBFNode.getDriverNodeAttributes :=
    RBFNode.getDriverNodeAttributes RBFNode.base;
  RBFNode.getDrivenNode := RBFNode.getDrivenNode RBFNode.base;
  RBFNode.getDrivenNodeAttributes :=
    RBFNode.getDrivenNodeAttributes RBFNode.base;
  RBFNode.setDriverNode := RBFNode.setDriverNode RBFNode.base;
  RBFNode.setDrivenNode := RBFNode.setDrivenNode RBFNode.base;
  RBFNode.getTransformParent := ret (PyStr "root");
  RBFNode.copyPoses := RBFNode.copyPoses RBFNode.base;
  RBFNode.recallDriverPose := RBFNode.recallDriverPose RBFNode.base;
  RBFNode.forceEvaluation := RBFNode.forceEvaluation RBFNode.base;
  RBFNode.getRBFToggleAttr := RBFNode.getRBFToggleAttr RBFNode.base
|}.

(** A subclass whose driven node is ["wd3"], driven through one transform
    attribute and one attribute of its own. *)
Definition posed : RBFNode.methods := {|
  RBFNode.create := RBFNode.create sub;
  RBFNode.getPoseInfo := RBFNode.getPoseInfo sub;
  RBFNode.getNodeInfo := RBFNode.getNodeInfo sub;
  RBFNode.lengthenCompoundAttrs := RBFNode.lengthenCompoundAttrs sub;
  RBFNode.addPose := RBFNode.addPose sub;
  RBFNode.deletePose := RBFNode.deletePose sub;
  RBFNode.getDriverNode := RBFNode.getDriverNode sub;
  RBFNode.getDriverNodeAttributes := RBFNode.getDriverNodeAttributes sub;
  RBFNode.getDrivenNode := ret ["wd3"];
  RBFNode.getDrivenNodeAttributes := ret ["translateY"; "RBF_Multiplier"];
  RBFNode.setDriverNode := RBFNode.setDriverNode sub;
  RBFNode.setDrivenNode := RBFNode.setDrivenNode sub;
  RBFNode.getTransformParent := RBFNode.getTransformParent sub;
  RBFNode.copyPoses := RBFNode.copyPoses sub;
  RBFNode.recallDriverPose := RBFNode.recallDriverPose sub;
  RBFNode.forceEvaluation := RBFNode.forceEvaluation sub;
  RBFNode.getRBFToggleAttr := RBFNode.getRBFToggleAttr sub
|}.

(** A subclass whose [create] makes a weightDriver node called
    [self.name]. *)
Definition maker : RBFNode.methods := {|
  RBFNode.create :=
    fun w =>
      (Ok PyNone,
       RBFNode.mkWorld
         (<[RBFNode.name (RBFNode.w_self w) := wd ∅]> (RBFNode.w_scene w))
         (RBFNode.w_self w));
  RBFNode.getPoseInfo := RBFNode.getPoseInfo sub;
  RBFNode.getNodeInfo := RBFNode.getNodeInfo sub;
  RBFNode.lengthenCompoundAttrs := RBFNode.lengthenCompoundAttrs sub;
  RBFNode.addPose := RBFNode.addPose sub;
  RBFNode.deletePose := RBFNode.deletePose sub;
  RBFNode.getDriverNode := RBFNode.getDriverNode sub;
  RBFNode.getDriverNodeAttributes := RBFNode.getDriverNodeAttributes sub;
  RBFNode.getDrivenNode := RBFNode.getDrivenNode sub;
  RBFNode.getDrivenNodeAttributes := RBFNode.getDrivenNodeAttributes sub;
  RBFNode.setDriverNode := RBFNode.setDriverNode sub;
  RBFNode.setDrivenNode := RBFNode.setDrivenNode sub;
  RBFNode.getTransformParent := RBFNode.getTransformParent sub;
  RBFNode.copyPoses := RBFNode.copyPoses sub;
  RBFNode.recallDriverPose := RBFNode.recallDriverPose sub;
  RBFNode.forceEvaluation := RBFNode.forceEvaluation sub;
  RBFNode.getRBFToggleAttr := RBFNode.getRBFToggleAttr sub
|}.


(** [scene0] after [RBFNode("wd9")] for the class [maker]: the new node has
    the attribute [driverControlName], declared and never assigned. *)
Definition scene3 : scene :=
  <["wd9" := wd (<["driverControlName" := AString None]> ∅)]> scene0.

(** A scene with an RBF node that has no setup name. *)
Definition scene1 : scene :=
  <["root" := xf None]> (<["wd3" := wd ∅]> ∅).

End Sample.

(** ** Properties *)

Import rbf_node.

(** *** The Python fragment *)

Lemma append_empty_r (s : string) : s +:+ "" = s.
Proof.
  induction s as [|c s IH]; [reflexivity |].
  change (String c (s +:+ "") = String c s). by rewrite IH.
Qed.

Lemma append_cons (c : ascii) (s t : string) :
  String c s +:+ t = String c (s +:+ t).
Proof. reflexivity. Qed.

Lemma format_plug (n a : string) :
  format "{}.{}" [n; a] = Ok (n +:+ "." +:+ a).
Proof. simpl. do 3 f_equal. apply append_empty_r. Qed.

Lemma format_two_fields_one_arg (a : string) :
  format "{}{}" [a] = Raise IndexError.
Proof. reflexivity. Qed.

Lemma bind_ok {St A B} (m : M St A) (k : A -> M St B) s v s' :
  m s = (Ok v, s') -> bind m k s = k v s'.
Proof. unfold bind. by intros ->. Qed.

Lemma bind_raise {St A B} (m : M St A) (k : A -> M St B) s e s' :
  m s = (Raise e, s') -> bind m k s = (Raise e, s').
Proof. unfold bind. by intros ->. Qed.

Lemma try_except_ok {St A} (m h : M St A) cls s v s' :
  m s = (Ok v, s') -> try_except m cls h s = (Ok v, s').
Proof. unfold try_except. by intros ->. Qed.

(** *** The host model *)

Lemma split_plug_join (n a : string) :
  valid_name n = true -> split_plug (n +:+ "." +:+ a) = Some (n, a).
Proof.
  unfold valid_name. induction n as [|c n IH]; [done |].
  rewrite append_cons. simpl.
  destruct (Ascii.eqb c "."); [done |].
  destruct (split_plug n) as [[? ?]|] eqn:E; [done |].
  intros _. by rewrite IH.
Qed.

Lemma resolve_join (s : scene) n a nd :
  valid_name n = true -> s !! n = Some nd ->
  resolve s (n +:+ "." +:+ a) =
    match nattrs nd !! a with
    | Some v => Some (n, nd, a, v)
    | None => None
    end.
Proof.
  intros Hv Hn. unfold resolve. by rewrite split_plug_join, Hn.
Qed.

(** Every resolved plug names a node of the scene and one of its
    attributes. *)
Lemma resolve_Some (s : scene) plug n nd a v :
  resolve s plug = Some (n, nd, a, v) ->
  s !! n = Some nd /\ nattrs nd !! a = Some v /\ split_plug plug = Some (n, a).
Proof.
  unfold resolve. destruct (split_plug plug) as [[n' a']|]; [|done].
  destruct (s !! n') as [nd'|] eqn:En; [|done].
  destruct (nattrs nd' !! a') as [v'|] eqn:Ea; [|done].
  intros [= <- <- <- <-]. done.
Qed.

(** [setAttr] followed by [getAttr] on the same plug reads the value
    written. *)
Lemma getAttr_setAttr_string plug value s r s' :
  mc.setAttr_string plug value s = (Ok r, s') ->
  mc.getAttr plug s' = (Ok (PyStr value), s').
Proof.
  unfold mc.setAttr_string, mc.getAttr.
  destruct (resolve s plug) as [[[[n nd] a] v]|] eqn:E; [|done].
  apply resolve_Some in E as (Hn & Ha & Hp).
  destruct v; [done |]. intros [= <- <-].
  unfold resolve. rewrite Hp, lookup_insert_eq. simpl.
  by rewrite lookup_insert_eq.
Qed.

(** *** The abstract methods of the base class *)

(** C1.  Of the sixteen methods [RBFNode] leaves to its subclasses, eleven
    raise [NotImplementedError] when called on the base class.  The other
    five ([getTransformParent], [copyPoses], [recallDriverPose],
    [forceEvaluation], [getRBFToggleAttr]) build the exception without
    raising it: they return [None] and leave the scene and the instance as
    they were. *)
Theorem base_deferred_methods (w : RBFNode.world) :
  RBFNode.create RBFNode.base w = (Raise NotImplementedError, w) /\
  RBFNode.getPoseInfo RBFNode.base w = (Raise NotImplementedError, w) /\
  RBFNode.getNodeInfo RBFNode.base w = (Raise NotImplementedError, w) /\
  (forall poseInput poseValue posesIndex,
     RBFNode.addPose RBFNode.base poseInput poseValue posesIndex w
     = (Raise NotImplementedError, w)) /\
  (forall indexToPop,
     RBFNode.deletePose RBFNode.base indexToPop w
     = (Raise NotImplementedError, w)) /\
  RBFNode.getDriverNode RBFNode.base w = (Raise NotImplementedError, w) /\
  RBFNode.getDriverNodeAttributes RBFNode.base w
  = (Raise NotImplementedError, w) /\
  RBFNode.getDrivenNode RBFNode.base w = (Raise NotImplementedError, w) /\
  RBFNode.getDrivenNodeAttributes RBFNode.base w
  = (Raise NotImplementedError, w) /\
  (forall driverNode driverAttrs,
     RBFNode.setDriverNode RBFNode.base driverNode driverAttrs w
     = (Raise NotImplementedError, w)) /\
  (forall drivenNode drivenAttrs parent,
     RBFNode.setDrivenNode RBFNode.base drivenNode drivenAttrs parent w
     = (Raise NotImplementedError, w)) /\
  RBFNode.getTransformParent RBFNode.base w = (Ok PyNone, w) /\
  (forall nodeB emptyPoseValues,
     RBFNode.copyPoses RBFNode.base nodeB emptyPoseValues w
     = (Ok PyNone, w)) /\
  (forall poseIndex,
     RBFNode.recallDriverPose RBFNode.base poseIndex w = (Ok PyNone, w)) /\
  RBFNode.forceEvaluation RBFNode.base w = (Ok PyNone, w) /\
  RBFNode.getRBFToggleAttr RBFNode.base w = (Ok PyNone, w).
Proof. repeat split. Qed.

(** *** [addDrivenGroup] *)

(** C3.  On a node of the scene that has a parent and whose name does not
    end with ["_ctl"], [addDrivenGroup] raises while it builds the name of
    the group (two replacement fields, one argument), and the scene is the
    one it was called in: no group was created, nothing was reparented. *)
Theorem addDrivenGroup_raises_without_ctl_suffix
    (s : scene) (node : string) (nd : scene_node) (p : string) :
  s !! node = Some nd ->
  nparent nd = Some p ->
  endswith node CTL_SUFFIX = false ->
  addDrivenGroup node s = (Raise IndexError, s).
Proof.
  intros Hn Hp Hsuf. unfold addDrivenGroup.
  erewrite bind_ok; last first.
  { unfold mc.listRelatives_p. by rewrite Hn, Hp. }
  cbn [or_ truthy truthy_option truthy_list negb]. rewrite Hsuf.
  apply bind_raise. unfold lift. by rewrite format_two_fields_one_arg.
Qed.

Lemma addDrivenGroup_raises_witness :
  addDrivenGroup "arm" Sample.scene0 = (Raise IndexError, Sample.scene0).
Proof.
  apply (addDrivenGroup_raises_without_ctl_suffix
           Sample.scene0 "arm" (Sample.xf (Some "root")) "root");
    vm_compute; reflexivity.
Defined.

(** *** Scene queries *)

Lemma or_nil_r {A} (l : list A) : or_ l [] = l.
Proof. by destruct l. Qed.

Lemma ls_spec (types : list string) (s : scene) :
  exists l, mc.ls types s = (Ok l, s) /\ NoDup l /\
    forall n, n ∈ l <-> exists nd, s !! n = Some nd /\ ntype nd ∈ types.
Proof.
  eexists. split; [reflexivity |]. split.
  - apply (sublist_NoDup _ ((map_to_list s).*1));
      [apply NoDup_fst_map_to_list |].
    apply fmap_sublist, sublist_filter.
  - intros n. rewrite list_elem_of_fmap. split.
    + intros ([n' nd] & -> & Hin). apply list_elem_of_filter in Hin as [HP Hin].
      apply elem_of_map_to_list in Hin. eauto.
    + intros (nd & Hn & Ht). exists (n, nd). split; [done |].
      apply list_elem_of_filter. split; [done |].
      by apply elem_of_map_to_list.
Qed.

(** C8.  One node type is supported, ["weightDriver"], and
    [getSceneRBFNodes] returns the scene nodes of a supported type, each
    once, without changing the scene; with no such node it returns the
    empty list. *)
Theorem getSceneRBFNodes_spec :
  SUPPORTED_RBF_NODES = ["weightDriver"] /\
  forall s : scene, exists l,
    getSceneRBFNodes s = (Ok l, s) /\
    NoDup l /\
    (forall n, n ∈ l <->
       exists nd, s !! n = Some nd /\ ntype nd ∈ SUPPORTED_RBF_NODES) /\
    ((forall n nd, s !! n = Some nd -> ntype nd ∉ SUPPORTED_RBF_NODES) ->
     l = []).
Proof.
  split; [reflexivity |]. intros s.
  destruct (ls_spec SUPPORTED_RBF_NODES s) as (l & Hls & Hnd & Hin).
  exists l. split.
  { unfold getSceneRBFNodes. erewrite bind_ok by exact Hls.
    unfold ret. by rewrite or_nil_r. }
  split; [done |]. split; [done |].
  intros Hnone. destruct l as [|n l]; [done |].
  destruct (proj1 (Hin n)) as (nd & Hn & Ht); [left |].
  by destruct (Hnone n nd Hn).
Qed.

Lemma comprehension_if_pure {St A} (l : list A) (cond : A -> M St bool)
    (b : A -> bool) (s : St) :
  (forall x, x ∈ l -> cond x s = (Ok (b x), s)) ->
  comprehension_if l cond s = (Ok (filter (fun x => b x = true) l), s).
Proof.
  induction l as [|x l IH]; intros Hc; [reflexivity |].
  simpl. erewrite bind_ok by (apply Hc; left).
  erewrite bind_ok by (apply IH; intros y Hy; apply Hc; by right).
  unfold ret. destruct (b x) eqn:Hb.
  - by rewrite filter_cons_True.
  - rewrite filter_cons_False; [done |]. by rewrite Hb.
Qed.

(** The list [getSceneSetupNodes] computes. *)
Lemma setup_nodes_run (s : scene) :
  exists l,
    getSceneSetupNodes s = (Ok l, s) /\
    NoDup l /\
    forall n, n ∈ l <->
      exists nd, s !! n = Some nd /\
                 ntype nd ∈ SUPPORTED_RBF_NODES /\
                 is_Some (nattrs nd !! RBF_SETUP_ATTR).
Proof.
  destruct (ls_spec SUPPORTED_RBF_NODES s) as (l0 & Hls & _ & Hin).
  set (has := fun n : string =>
                match s !! n with
                | Some nd => bool_decide (is_Some (nattrs nd !! RBF_SETUP_ATTR))
                | None => false
                end).
  set (nodes := list_to_set l0 : gset string).
  exists (filter (fun n => has n = true) (elements nodes)). split.
  { unfold getSceneSetupNodes. erewrite bind_ok by exact Hls.
    apply comprehension_if_pure. intros n Hn.
    apply elem_of_elements, elem_of_list_to_set, Hin in Hn as (nd & Hnd & _).
    unfold mc.attributeQuery_ex, has. by rewrite Hnd. }
  split; [apply NoDup_filter, NoDup_elements |].
  intros n. rewrite list_elem_of_filter, elem_of_elements.
  unfold nodes. rewrite elem_of_list_to_set, Hin. unfold has. split.
  - intros [Hhas (nd & Hnd & Ht)]. rewrite Hnd in Hhas.
    apply bool_decide_eq_true in Hhas. eauto.
  - intros (nd & Hnd & Ht & Ha). rewrite Hnd. split; [|by eauto].
    by apply bool_decide_eq_true.
Qed.

(** C9.  [getSceneSetupNodes] returns, each once and without changing the
    scene, the scene nodes that are of a supported type and carry the
    attribute [rbf_setup_name]: every returned node is one, and every such
    node is returned. *)
Theorem getSceneSetupNodes_spec (s : scene) :
  exists l,
    getSceneSetupNodes s = (Ok l, s) /\
    NoDup l /\
    (forall n, n ∈ l ->
       exists nd, s !! n = Some nd /\
                  ntype nd ∈ SUPPORTED_RBF_NODES /\
                  is_Some (nattrs nd !! RBF_SETUP_ATTR)) /\
    (forall n nd,
       s !! n = Some nd ->
       ntype nd ∈ SUPPORTED_RBF_NODES ->
       is_Some (nattrs nd !! RBF_SETUP_ATTR) ->
       n ∈ l).
Proof.
  destruct (setup_nodes_run s) as (l & Hrun & Hnd & Hin).
  exists l. split; [done |]. split; [done |]. split.
  - intros n Hn. by apply Hin.
  - intros n nd Hn Ht Ha. apply Hin. eauto.
Qed.

(** *** The attribute helpers *)

Lemma addAttr_outcome (name ln : string) (d : attr_decl) (s : scene) :
  (exists nd, s !! name = Some nd /\ nattrs nd !! ln = None /\
     mc.addAttr name ln d s
     = (Ok PyNone, <[name := set_attr nd ln (attr_default d)]> s)) \/
  (exists nd, s !! name = Some nd /\ is_Some (nattrs nd !! ln) /\
     mc.addAttr name ln d s = (Raise RuntimeError, s)) \/
  (s !! name = None /\ mc.addAttr name ln d s = (Raise ValueError, s)).
Proof.
  unfold mc.addAttr. destruct (s !! name) as [nd|] eqn:Hn; [|by auto].
  destruct (nattrs nd !! ln) eqn:Ha; [right; left | left]; eauto.
Qed.

Lemma deleteAttr_outcome (plug : string) (s : scene) :
  (exists n nd a v, resolve s plug = Some (n, nd, a, v) /\
     mc.deleteAttr plug s = (Ok PyNone, <[n := del_attr nd a]> s)) \/
  (resolve s plug = None /\ mc.deleteAttr plug s = (Raise ValueError, s)).
Proof.
  unfold mc.deleteAttr.
  destruct (resolve s plug) as [[[[n nd] a] v]|]; [left | right]; eauto 10.
Qed.

(** How a helper of the shape [try: cmd  except cls: pass] relates to the
    command it wraps. *)
Lemma suppressing_helper (cmd : M scene pyval) (cls : exn) (s : scene) :
  (try_except cmd cls (ret PyNone) ;;; ret PyNone) s =
    match cmd s with
    | (Ok _, s') => (Ok PyNone, s')
    | (Raise e, s') =>
        if isinstance e cls then (Ok PyNone, s') else (Raise e, s')
    end.
Proof.
  unfold bind, try_except, ret.
  destruct (cmd s) as [[v|e] s']; [done |]. by destruct (isinstance e cls).
Qed.




(** *** Setup name and driver control attributes *)

Lemma bind_inv_ok {St A B} (m : M St A) (k : A -> M St B) s v s' :
  bind m k s = (Ok v, s') ->
  exists x s1, m s = (Ok x, s1) /\ k x s1 = (Ok v, s').
Proof.
  unfold bind. destruct (m s) as [[x|e] s1]; [eauto | done].
Qed.

Lemma set_attr_set_attr nd a v1 v2 :
  set_attr (set_attr nd a v1) a v2 = set_attr nd a v2.
Proof. unfold set_attr. simpl. by rewrite insert_insert_eq. Qed.

(** Writing string data to the attribute [a] of a node that exists, has a
    valid name, and whose attribute [a] is a string attribute. *)
Lemma setAttr_string_join (s : scene) n nd a o value :
  valid_name n = true -> s !! n = Some nd ->
  nattrs nd !! a = Some (AString o) ->
  mc.setAttr_string (n +:+ "." +:+ a) value s
  = (Ok PyNone, <[n := set_attr nd a (AString (Some value))]> s).
Proof.
  intros Hv Hn Ha. unfold mc.setAttr_string.
  by rewrite (resolve_join s n a nd Hv Hn), Ha.
Qed.

(** [setAttr] removes no attribute from any node. *)
Lemma setAttr_string_keeps_attr plug value (s s' : scene) r m ndm x :
  mc.setAttr_string plug value s = (Ok r, s') ->
  s !! m = Some ndm -> is_Some (nattrs ndm !! x) ->
  exists ndm', s' !! m = Some ndm' /\ is_Some (nattrs ndm' !! x).
Proof.
  unfold mc.setAttr_string.
  destruct (resolve s plug) as [[[[n nd] a] v]|] eqn:E; [|done].
  apply resolve_Some in E as (Hn & Ha & _).
  destruct v; [done |]. intros [= <- <-] Hm Hx.
  destruct (decide (n = m)) as [->|Hne].
  - rewrite lookup_insert_eq. eexists; split; [done |].
    simplify_eq. simpl. apply lookup_insert_is_Some'. by right.
  - rewrite lookup_insert_ne by done. eauto.
Qed.

(** C4.  Whenever [setDriverControlAttr(node, controlName)] returns, a
    following [getDriverControlAttr(node)] returns [controlName].  It does
    return on every node of the scene whose attribute [driverControlName]
    is absent or is a string attribute, and then that attribute of the
    node holds [controlName], having been created if it did not exist. *)
Theorem driverControlAttr_set_then_get
    (s : scene) (node controlName : string) :
  (forall v s',
     setDriverControlAttr node controlName s = (Ok v, s') ->
     getDriverControlAttr node s' = (Ok (PyStr controlName), s')) /\
  (forall nd,
     s !! node = Some nd ->
     valid_name node = true ->
     (forall x, nattrs nd !! DRIVER_CTL_ATTR_NAME <> Some (AFloat x)) ->
     setDriverControlAttr node controlName s
     = (Ok PyNone,
        <[node := set_attr nd DRIVER_CTL_ATTR_NAME
                    (AString (Some controlName))]> s)).
Proof.
  split.
  - intros v s' Hset. unfold setDriverControlAttr in Hset.
    apply bind_inv_ok in Hset as (ex & s1 & _ & Hset).
    apply bind_inv_ok in Hset as (? & s2 & _ & Hset).
    apply bind_inv_ok in Hset as (plug & s3 & Hplug & Hset).
    apply bind_inv_ok in Hset as (r & s4 & Hset & Hret).
    unfold lift in Hplug. rewrite format_plug in Hplug.
    injection Hplug as <- <-. injection Hret as <- <-.
    apply getAttr_setAttr_string in Hset.
    unfold getDriverControlAttr.
    apply try_except_ok. unfold bind at 1, lift. by rewrite format_plug.
  - intros nd Hn Hv Hty. unfold setDriverControlAttr.
    erewrite bind_ok; last first.
    { unfold mc.attributeQuery_ex. by rewrite Hn. }
    destruct (nattrs nd !! DRIVER_CTL_ATTR_NAME) as [[x|o]|] eqn:Ha.
    + by destruct (Hty x).
    + rewrite bool_decide_eq_true_2 by eauto. cbn [negb].
      erewrite (bind_ok (ret PyNone)) by reflexivity.
      erewrite bind_ok by (unfold lift; by rewrite format_plug).
      erewrite bind_ok by (by apply (setAttr_string_join s node nd _ o)).
      reflexivity.
    + rewrite bool_decide_eq_false_2 by (intros [? ?]; done). cbn [negb].
      erewrite bind_ok; last first.
      { unfold createDriverControlAttr. rewrite suppressing_helper.
        unfold mc.addAttr. by rewrite Hn, Ha. }
      erewrite bind_ok by (unfold lift; by rewrite format_plug).
      erewrite bind_ok; last first.
      { eapply (setAttr_string_join _ node _ _ None); [done | |].
        - apply lookup_insert_eq.
        - simpl. apply lookup_insert_eq. }
      unfold ret. by rewrite insert_insert_eq, set_attr_set_attr.
Qed.

Lemma driverControlAttr_set_then_get_witness :
  exists s',
    setDriverControlAttr "wd1" "arm_ctl" Sample.scene0 = (Ok PyNone, s') /\
    getDriverControlAttr "wd1" s' = (Ok (PyStr "arm_ctl"), s').
Proof.
  destruct (driverControlAttr_set_then_get Sample.scene0 "wd1" "arm_ctl")
    as [Hget Hset].
  eexists. split.
  - apply (Hset (Sample.wd (<["rbf_setup_name" := AString (Some "A")]> ∅)));
      [vm_compute; reflexivity | vm_compute; reflexivity |].
    intros x. vm_compute. discriminate.
  - eapply Hget.
    apply (Hset (Sample.wd (<["rbf_setup_name" := AString (Some "A")]> ∅)));
      [vm_compute; reflexivity | vm_compute; reflexivity |].
    intros x. vm_compute. discriminate.
Defined.

(** C6.  Whenever [setSetupName(node, setupName)] returns, a following
    [getSetupName(node)] returns [setupName].  It does return on every node
    of the scene whose attribute [rbf_setup_name] is absent or is a string
    attribute, and then that attribute of the node holds [setupName],
    having been created if it did not exist.  On a node of the scene
    without the attribute, [getSetupName] returns [None]. *)
Theorem setupName_set_then_get (s : scene) (node setupName : string) :
  (forall v s',
     setSetupName node setupName s = (Ok v, s') ->
     getSetupName node s' = (Ok (PyStr setupName), s')) /\
  (forall nd,
     s !! node = Some nd ->
     valid_name node = true ->
     (forall x, nattrs nd !! RBF_SETUP_ATTR <> Some (AFloat x)) ->
     setSetupName node setupName s
     = (Ok PyNone,
        <[node := set_attr nd RBF_SETUP_ATTR (AString (Some setupName))]> s)) /\
  (forall nd,
     s !! node = Some nd ->
     nattrs nd !! RBF_SETUP_ATTR = None ->
     getSetupName node s = (Ok PyNone, s)).
Proof.
  split; [|split].
  - intros v s' Hset. unfold setSetupName in Hset.
    apply bind_inv_ok in Hset as (ex & s1 & Hq & Hset).
    apply bind_inv_ok in Hset as (? & s2 & Hadd & Hset).
    apply bind_inv_ok in Hset as (plug & s3 & Hplug & Hset).
    apply bind_inv_ok in Hset as (r & s4 & Hset & Hret).
    unfold lift in Hplug. rewrite format_plug in Hplug.
    injection Hplug as <- <-. injection Hret as <- <-.
    (* the node carries the attribute before the value is written *)
    assert (exists nd2, s2 !! node = Some nd2 /\
                        is_Some (nattrs nd2 !! RBF_SETUP_ATTR))
      as (nd2 & Hn2 & Ha2).
    { unfold mc.attributeQuery_ex in Hq.
      destruct (s !! node) as [nd|] eqn:Hn; [|done].
      injection Hq as <- <-.
      destruct (nattrs nd !! RBF_SETUP_ATTR) as [a|] eqn:Ha.
      - rewrite bool_decide_eq_true_2 in Hadd by eauto.
        injection Hadd as _ <-. eauto.
      - rewrite bool_decide_eq_false_2 in Hadd by (intros [? ?]; done).
        cbn [negb] in Hadd. unfold mc.addAttr in Hadd.
        rewrite Hn, Ha in Hadd. injection Hadd as _ <-.
        rewrite lookup_insert_eq. eexists; split; [done |].
        simpl. rewrite lookup_insert_eq. eauto. }
    destruct (setAttr_string_keeps_attr _ _ _ _ _ _ _ _ Hset Hn2 Ha2)
      as (nd' & Hn' & Ha').
    apply getAttr_setAttr_string in Hset.
    unfold getSetupName. erewrite bind_ok; last first.
    { unfold mc.attributeQuery_ex. by rewrite Hn'. }
    rewrite bool_decide_eq_true_2 by done. cbn [negb].
    erewrite bind_ok by (unfold lift; by rewrite format_plug). done.
  - intros nd Hn Hv Hty. unfold setSetupName.
    erewrite bind_ok; last first.
    { unfold mc.attributeQuery_ex. by rewrite Hn. }
    destruct (nattrs nd !! RBF_SETUP_ATTR) as [[x|o]|] eqn:Ha.
    + by destruct (Hty x).
    + rewrite bool_decide_eq_true_2 by eauto. cbn [negb].
      erewrite (bind_ok (ret PyNone)) by reflexivity.
      erewrite bind_ok by (unfold lift; by rewrite format_plug).
      erewrite bind_ok by (by apply (setAttr_string_join s node nd _ o)).
      reflexivity.
    + rewrite bool_decide_eq_false_2 by (intros [? ?]; done). cbn [negb].
      erewrite bind_ok; last first.
      { unfold mc.addAttr. by rewrite Hn, Ha. }
      erewrite bind_ok by (unfold lift; by rewrite format_plug).
      erewrite bind_ok; last first.
      { eapply (setAttr_string_join _ node _ _ None); [done | |].
        - apply lookup_insert_eq.
        - simpl. apply lookup_insert_eq. }
      unfold ret. by rewrite insert_insert_eq, set_attr_set_attr.
  - intros nd Hn Ha. unfold getSetupName.
    erewrite bind_ok; last first.
    { unfold mc.attributeQuery_ex. by rewrite Hn. }
    rewrite Ha, bool_decide_eq_false_2 by (intros [? ?]; done). done.
Qed.

Lemma setupName_set_then_get_witness :
  (exists s',
     setSetupName "wd3" "B" Sample.scene0 = (Ok PyNone, s') /\
     getSetupName "wd3" s' = (Ok (PyStr "B"), s')) /\
  getSetupName "wd3" Sample.scene0 = (Ok PyNone, Sample.scene0).
Proof.
  destruct (setupName_set_then_get Sample.scene0 "wd3" "B")
    as (Hget & Hset & Hnone).
  assert (Hrun := Hset (Sample.wd (<["RBF_Multiplier" := AFloat 1]> ∅))).
  split.
  - eexists. split.
    + apply Hrun; [vm_compute; reflexivity | vm_compute; reflexivity |].
      intros x. vm_compute. discriminate.
    + eapply Hget.
      apply Hrun; [vm_compute; reflexivity | vm_compute; reflexivity |].
      intros x. vm_compute. discriminate.
  - apply (Hnone (Sample.wd (<["RBF_Multiplier" := AFloat 1]> ∅)));
      vm_compute; reflexivity.
Defined.

(** *** The class *)

Lemma on_scene_eq {A} (m : M scene A) (w : RBFNode.world) r s' :
  m (RBFNode.w_scene w) = (r, s') ->
  RBFNode.on_scene m w = (r, RBFNode.mkWorld s' (RBFNode.w_self w)).
Proof. unfold RBFNode.on_scene. by intros ->. Qed.





(** What [__init__] runs when [name] is a scene node of a supported type:
    [rbfType] is assigned, then [getTransformParent] and
    [lengthenCompoundAttrs] are called. *)
Lemma init_supported (cls : RBFNode.methods) (name : string) (s : scene)
    (o : RBFNode.instance) (nd : scene_node) :
  s !! name = Some nd ->
  ntype nd ∈ SUPPORTED_RBF_NODES ->
  RBFNode.__init__ cls name (RBFNode.mkWorld s o) =
    (p <- RBFNode.getTransformParent cls ;;
     RBFNode.set_transformNode p ;;;
     RBFNode.lengthenCompoundAttrs cls ;;;
     ret PyNone)
      (RBFNode.mkWorld s (RBFNode.mkInstance name PyNone (Some (ntype nd)))).
Proof.
  intros Hn Ht. unfold RBFNode.__init__.
  erewrite bind_ok by reflexivity. erewrite bind_ok by reflexivity.
  erewrite bind_ok by (apply on_scene_eq; reflexivity). simpl.
  rewrite bool_decide_eq_true_2 by (rewrite Hn; eauto).
  erewrite bind_ok; last first.
  { erewrite bind_ok; [reflexivity |].
    apply on_scene_eq. simpl. unfold mc.nodeType. by rewrite Hn. }
  rewrite bool_decide_eq_true_2 by done.
  erewrite bind_ok; last first.
  { apply on_scene_eq. simpl. unfold mc.nodeType. by rewrite Hn. }
  erewrite bind_ok by reflexivity. reflexivity.
Qed.

(** What [__init__] runs otherwise: [create], then
    [createDriverControlAttr(self.name)]. *)
Lemma init_unsupported (cls : RBFNode.methods) (name : string) (s : scene)
    (o : RBFNode.instance) :
  (forall nd, s !! name = Some nd -> ntype nd ∉ SUPPORTED_RBF_NODES) ->
  RBFNode.__init__ cls name (RBFNode.mkWorld s o) =
    (RBFNode.create cls ;;;
     n <- RBFNode.self_name ;;
     RBFNode.on_scene (createDriverControlAttr n) ;;;
     ret PyNone)
      (RBFNode.mkWorld s (RBFNode.mkInstance name PyNone (RBFNode.rbfType o))).
Proof.
  intros Ht. unfold RBFNode.__init__.
  erewrite bind_ok by reflexivity. erewrite bind_ok by reflexivity.
  erewrite bind_ok by (apply on_scene_eq; reflexivity). simpl.
  destruct (s !! name) as [nd|] eqn:Hn.
  - rewrite bool_decide_eq_true_2 by eauto.
    erewrite bind_ok; last first.
    { erewrite bind_ok; [reflexivity |].
      apply on_scene_eq. simpl. unfold mc.nodeType. by rewrite Hn. }
    rewrite bool_decide_eq_false_2 by eauto. reflexivity.
  - rewrite bool_decide_eq_false_2 by (intros [? ?]; done).
    erewrite bind_ok by reflexivity. reflexivity.
Qed.

(** C7.  Construction [RBFNode(name)] for a class [cls].  When [name] is a
    scene node of a supported type the instance wraps it: [rbfType] is that
    type and [transformNode] is what [getTransformParent] returned when
    [lengthenCompoundAttrs] is called, and no other overridable method,
    [create] in particular, takes part.  Otherwise [create] is called
    first.  What it raises ends the construction.  When it returns, the
    node called [self.name] is given the string attribute
    [driverControlName], not yet assigned, and nothing else in the scene
    changes; a node that already has the attribute is left as it is; with
    no node of that name the host's [ValueError] ends the construction. *)
Theorem RBFNode_init_spec (cls : RBFNode.methods) (name : string) (s : scene) :
  (forall nd,
     s !! name = Some nd -> ntype nd ∈ SUPPORTED_RBF_NODES ->
     let w0 := RBFNode.mkWorld s
                 (RBFNode.mkInstance name PyNone (Some (ntype nd))) in
     (forall p w1 r w2,
        RBFNode.getTransformParent cls w0 = (Ok p, w1) ->
        RBFNode.lengthenCompoundAttrs cls
          (RBFNode.mkWorld (RBFNode.w_scene w1)
             (RBFNode.mkInstance (RBFNode.name (RBFNode.w_self w1)) p
                (RBFNode.rbfType (RBFNode.w_self w1))))
        = (Ok r, w2) ->
        RBFNode.new cls name s = (Ok PyNone, w2)) /\
     (forall cls',
        RBFNode.getTransformParent cls' = RBFNode.getTransformParent cls ->
        RBFNode.lengthenCompoundAttrs cls'
        = RBFNode.lengthenCompoundAttrs cls ->
        RBFNode.new cls' name s = RBFNode.new cls name s)) /\
  ((forall nd, s !! name = Some nd -> ntype nd ∉ SUPPORTED_RBF_NODES) ->
     let w0 := RBFNode.mkWorld s (RBFNode.mkInstance name PyNone None) in
     (forall e w1,
        RBFNode.create cls w0 = (Raise e, w1) ->
        RBFNode.new cls name s = (Raise e, w1)) /\
     (forall r w1 nd1,
        RBFNode.create cls w0 = (Ok r, w1) ->
        RBFNode.w_scene w1 !! RBFNode.name (RBFNode.w_self w1) = Some nd1 ->
        nattrs nd1 !! DRIVER_CTL_ATTR_NAME = None ->
        RBFNode.new cls name s
        = (Ok PyNone,
           RBFNode.mkWorld
             (<[RBFNode.name (RBFNode.w_self w1) :=
                  set_attr nd1 DRIVER_CTL_ATTR_NAME (AString None)]>
                (RBFNode.w_scene w1))
             (RBFNode.w_self w1))) /\
     (forall r w1 nd1,
        RBFNode.create cls w0 = (Ok r, w1) ->
        RBFNode.w_scene w1 !! RBFNode.name (RBFNode.w_self w1) = Some nd1 ->
        is_Some (nattrs nd1 !! DRIVER_CTL_ATTR_NAME) ->
        RBFNode.new cls name s = (Ok PyNone, w1)) /\
     (forall r w1,
        RBFNode.create cls w0 = (Ok r, w1) ->
        RBFNode.w_scene w1 !! RBFNode.name (RBFNode.w_self w1) = None ->
        RBFNode.new cls name s = (Raise ValueError, w1))).
Proof.
  split.
  - intros nd Hn Ht w0. split.
    + intros p w1 r w2 Hp Hl. unfold RBFNode.new.
      rewrite (init_supported cls name s _ nd Hn Ht). fold w0.
      erewrite bind_ok by exact Hp.
      erewrite bind_ok by reflexivity.
      erewrite bind_ok by exact Hl. reflexivity.
    + intros cls' Hp Hl. unfold RBFNode.new.
      rewrite !(init_supported _ name s _ nd Hn Ht). by rewrite Hp, Hl.
  - intros Ht w0.
    assert (Hafter : forall r w1,
              RBFNode.create cls w0 = (Ok r, w1) ->
              RBFNode.new cls name s
              = (RBFNode.on_scene
                   (createDriverControlAttr
                      (RBFNode.name (RBFNode.w_self w1))) ;;;
                 ret PyNone) w1).
    { intros r w1 Hc. unfold RBFNode.new.
      rewrite init_unsupported by done. simpl. fold w0.
      erewrite bind_ok by exact Hc.
      erewrite bind_ok by reflexivity. reflexivity. }
    split; [|split; [|split]].
    + intros e w1 Hc. unfold RBFNode.new.
      rewrite init_unsupported by done. by apply bind_raise.
    + intros r w1 nd1 Hc Hn1 Ha. rewrite (Hafter r w1 Hc).
      erewrite bind_ok; [reflexivity |]. apply on_scene_eq.
      unfold createDriverControlAttr. rewrite suppressing_helper.
      unfold mc.addAttr. by rewrite Hn1, Ha.
    + intros r w1 nd1 Hc Hn1 [a Ha]. rewrite (Hafter r w1 Hc).
      assert (RBFNode.on_scene
                (createDriverControlAttr (RBFNode.name (RBFNode.w_self w1))) w1
              = (Ok PyNone, w1)) as Hattr.
      { rewrite (on_scene_eq _ w1 (Ok PyNone) (RBFNode.w_scene w1));
          [by destruct w1 |].
        unfold createDriverControlAttr. rewrite suppressing_helper.
        unfold mc.addAttr. by rewrite Hn1, Ha. }
      erewrite bind_ok by exact Hattr. reflexivity.
    + intros r w1 Hc Hn1. rewrite (Hafter r w1 Hc).
      assert (RBFNode.on_scene
                (createDriverControlAttr (RBFNode.name (RBFNode.w_self w1))) w1
              = (Raise ValueError, w1)) as Hattr.
      { rewrite (on_scene_eq _ w1 (Raise ValueError) (RBFNode.w_scene w1));
          [by destruct w1 |].
        unfold createDriverControlAttr. rewrite suppressing_helper.
        unfold mc.addAttr. by rewrite Hn1. }
      erewrite bind_raise by exact Hattr. reflexivity.
Qed.

Lemma RBFNode_init_spec_witness :
  RBFNode.new Sample.sub "wd1" Sample.scene0
  = (Ok PyNone,
     RBFNode.mkWorld Sample.scene0
       (RBFNode.mkInstance "wd1" (PyStr "root") (Some "weightDriver"))) /\
  RBFNode.new RBFNode.base "wd9" Sample.scene0
  = (Raise NotImplementedError,
     RBFNode.mkWorld Sample.scene0 (RBFNode.mkInstance "wd9" PyNone None)) /\
  RBFNode.new Sample.maker "wd9" Sample.scene0
  = (Ok PyNone,
     RBFNode.mkWorld Sample.scene3 (RBFNode.mkInstance "wd9" PyNone None)).
Proof.
  split; [|split].
  - refine (proj1 (proj1 (RBFNode_init_spec Sample.sub "wd1" Sample.scene0)
              (Sample.wd (<["rbf_setup_name" := AString (Some "A")]> ∅)) _ _)
              (PyStr "root") _ PyNone _ _ _).
    + vm_compute; reflexivity.
    + by left.
    + vm_compute; reflexivity.
    + vm_compute; reflexivity.
  - refine (proj1 (proj2 (RBFNode_init_spec RBFNode.base "wd9" Sample.scene0)
              _) NotImplementedError _ _).
    + intros nd. vm_compute. discriminate.
    + vm_compute; reflexivity.
  - assert (Hnew := proj1 (proj2 (proj2 (RBFNode_init_spec Sample.maker "wd9"
                                           Sample.scene0)
                                    (fun nd (H : Sample.scene0 !! "wd9"
                                                 = Some nd) =>
                                       ltac:(vm_compute in H; discriminate))))
                      PyNone
                      (RBFNode.mkWorld (<["wd9" := Sample.wd ∅]> Sample.scene0)
                         (RBFNode.mkInstance "wd9" PyNone None))
                      (Sample.wd ∅)).
    rewrite Hnew; [vm_compute; reflexivity | vm_compute; reflexivity ..].
Defined.

(** *** [getRbfSceneSetupsInfo] *)

Section setups.

Variable s : scene.

(** The value of each visited node's [rbf_setup_name] attribute. *)
Variable stored : string -> pyval.

Let key (n : string) : pyval := setup_key (stored n).

(** The loop files every node under its key and never fails, provided the
    attribute of each node can be read and the dict has its ["empty"]
    entry. *)
Lemma setups_loop_run (rest : list string) :
  forall d : gmap pyval (list string),
    (forall n, n ∈ rest ->
       mc.getAttr (n +:+ "." +:+ RBF_SETUP_ATTR) s = (Ok (stored n), s)) ->
    is_Some (d !! PyStr "empty") ->
    setups_loop rest d s
    = (Ok (foldl (fun d n => file_under d (key n) n) d rest), s).
Proof.
  induction rest as [|n rest IH]; intros d Hread Hempty; [reflexivity |].
  cbn [setups_loop foldl].
  erewrite bind_ok by (unfold lift; by rewrite format_plug).
  erewrite bind_ok by (apply Hread; left).
  assert (Hrest : forall m, m ∈ rest ->
            mc.getAttr (m +:+ "." +:+ RBF_SETUP_ATTR) s = (Ok (stored m), s))
    by (intros m Hm; apply Hread; by right).
  assert (Hkeep : forall k l,
            is_Some ((<[k := l]> d : gmap pyval (list string))
                       !! PyStr "empty")).
  { intros k l. apply lookup_insert_is_Some'. by right. }
  assert (Hfile : forall d1 : gmap pyval (list string),
            d1 = file_under d (key n) n ->
            is_Some (d1 !! PyStr "empty") ->
            setups_loop rest d1 s
            = (Ok (foldl (fun d n => file_under d (key n) n)
                     (file_under d (key n) n) rest), s)).
  { intros d1 -> Hd1. by apply IH. }
  case_bool_decide as Hv.
  - destruct Hempty as [l Hl].
    erewrite bind_ok by (unfold lift, getitem; by rewrite Hl).
    apply Hfile; [|apply Hkeep]. unfold file_under, key, setup_key.
    rewrite bool_decide_eq_true_2 by done. by rewrite Hl.
  - case_bool_decide as Hk.
    + destruct Hk as [l Hl].
      erewrite bind_ok by (unfold lift, getitem; by rewrite Hl).
      apply Hfile; [|apply Hkeep]. unfold file_under, key, setup_key.
      rewrite bool_decide_eq_false_2 by done. by rewrite Hl.
    + apply Hfile; [|apply Hkeep]. unfold file_under, key, setup_key.
      rewrite bool_decide_eq_false_2 by done.
      destruct (d !! stored n) eqn:Hl; [by destruct Hk; eauto | done].
Qed.

Lemma filed_initial : filed key [] {[ PyStr "empty" := [] ]}.
Proof.
  split.
  - intros k l Hl. apply lookup_singleton_Some in Hl as [_ <-].
    split; [constructor | intros n Hn; by apply elem_of_nil in Hn].
  - intros n Hn. by apply elem_of_nil in Hn.
Qed.

Lemma filed_step (done : list string) (d : gmap pyval (list string))
    (n : string) :
  filed key done d -> n ∉ done ->
  filed key (done ++ [n]) (file_under d (key n) n).
Proof.
  intros [Hlists Hnodes] Hnew. unfold file_under. split.
  - intros k l Hl. destruct (decide (key n = k)) as [<-|Hne].
    + rewrite lookup_insert_eq in Hl. injection Hl as <-.
      destruct (d !! key n) as [l0|] eqn:Hl0; simpl.
      * destruct (Hlists _ _ Hl0) as [Hnd Hin]. split.
        -- apply NoDup_app. split; [done |]. split; [|apply NoDup_singleton].
           intros m Hm ->%list_elem_of_singleton.
           by destruct (Hin _ Hm).
        -- intros m [Hm| ->%list_elem_of_singleton]%elem_of_app.
           ++ destruct (Hin _ Hm). split; [apply elem_of_app; by left | done].
           ++ split; [|done]. apply elem_of_app. right. by left.
      * split; [apply NoDup_singleton |].
        intros m ->%list_elem_of_singleton.
        split; [|done]. apply elem_of_app. right. by left.
    + rewrite lookup_insert_ne in Hl by done.
      destruct (Hlists _ _ Hl) as [Hnd Hin]. split; [done |].
      intros m Hm. destruct (Hin _ Hm). split; [|done].
      apply elem_of_app. by left.
  - intros m [Hm| ->%list_elem_of_singleton]%elem_of_app.
    + destruct (Hnodes _ Hm) as (l & Hl & Hin).
      destruct (decide (key n = key m)) as [Heq|Hne].
      * rewrite Heq, lookup_insert_eq, Hl. simpl.
        eexists; split; [done |]. apply elem_of_app. by left.
      * rewrite lookup_insert_ne by done. eauto.
    + rewrite lookup_insert_eq. eexists; split; [done |].
      apply elem_of_app. right. by left.
Qed.

Lemma filed_foldl (rest : list string) :
  forall (done : list string) (d : gmap pyval (list string)),
    filed key done d -> NoDup (done ++ rest) ->
    filed key (done ++ rest)
      (foldl (fun d n => file_under d (key n) n) d rest).
Proof.
  induction rest as [|n rest IH]; intros done d Hf Hnd.
  - by rewrite app_nil_r.
  - cbn [foldl]. replace (done ++ n :: rest) with ((done ++ [n]) ++ rest)
      in * by (by rewrite <- app_assoc).
    apply IH; [|done]. apply filed_step; [done |].
    apply NoDup_app in Hnd as (Hnd & _ & _).
    apply NoDup_app in Hnd as (_ & Hdisj & _).
    intros Hin. apply (Hdisj _ Hin). by left.
Qed.

End setups.

Lemma foldl_file_under_keeps (key : string -> pyval) (k0 : pyval)
    (rest : list string) :
  forall d : gmap pyval (list string),
    is_Some (d !! k0) ->
    is_Some (foldl (fun d n => file_under d (key n) n) d rest !! k0).
Proof.
  induction rest as [|n rest IH]; intros d Hd; [done |].
  cbn [foldl]. apply IH. unfold file_under.
  apply lookup_insert_is_Some'. by right.
Qed.

(** C10.  In a scene whose node names are well formed,
    [getRbfSceneSetupsInfo()] files every node of [getSceneSetupNodes()]
    in exactly one list of the dict it returns, once, under the key
    [setup_key v] where [v] is the node's stored setup name: that is [v]
    itself, or ["empty"] when [v] is the empty string.  The lists hold
    nothing else and the key ["empty"] is always there.
    [getRbfSceneSetupsInfo(includeEmpty=False)] returns the same dict with
    the key ["empty"] removed. *)
Theorem getRbfSceneSetupsInfo_partition (s : scene) :
  scene_wf s ->
  exists (nodes : list string) (d : gmap pyval (list string)),
    getSceneSetupNodes s = (Ok nodes, s) /\
    getRbfSceneSetupsInfo true s = (Ok d, s) /\
    getRbfSceneSetupsInfo false s = (Ok (delete (PyStr "empty") d), s) /\
    delete (PyStr "empty") d !! PyStr "empty" = None /\
    is_Some (d !! PyStr "empty") /\
    (forall n, n ∈ nodes ->
       exists (v : pyval) (l : list string),
         mc.getAttr (n +:+ "." +:+ RBF_SETUP_ATTR) s = (Ok v, s) /\
         d !! setup_key v = Some l /\ n ∈ l /\
         forall k' l', d !! k' = Some l' -> n ∈ l' -> k' = setup_key v) /\
    (forall k l, d !! k = Some l -> NoDup l /\ forall n, n ∈ l -> n ∈ nodes).
Proof.
  intros Hwf.
  destruct (setup_nodes_run s) as (nodes & Hnodes & Hnd & Hin).
  set (stored := fun n : string =>
         match s !! n with
         | Some nd =>
             match nattrs nd !! RBF_SETUP_ATTR with
             | Some a => attr_value a
             | None => PyNone
             end
         | None => PyNone
         end).
  assert (Hread : forall n, n ∈ nodes ->
            mc.getAttr (n +:+ "." +:+ RBF_SETUP_ATTR) s = (Ok (stored n), s)).
  { intros n (nd & Hn & _ & [a Ha])%Hin. unfold mc.getAttr, stored.
    by rewrite (resolve_join s n _ nd (Hwf _ _ Hn) Hn), Hn, Ha. }
  set (d0 := {[ PyStr "empty" := [] ]} : gmap pyval (list string)).
  assert (Hd0 : is_Some (d0 !! PyStr "empty")).
  { unfold d0. rewrite lookup_singleton_eq. eauto. }
  pose proof (setups_loop_run s stored nodes d0 Hread Hd0) as Hloop.
  pose proof (filed_foldl stored nodes [] d0 (filed_initial stored) Hnd)
    as [Hlists Hfiled].
  pose proof (foldl_file_under_keeps
                (fun n => setup_key (stored n)) (PyStr "empty") nodes d0 Hd0)
    as Hempty.
  set (d := foldl _ d0 nodes) in *.
  exists nodes, d. split; [done |].
  split; [|split; [|split; [|split; [|split]]]].
  - unfold getRbfSceneSetupsInfo. erewrite bind_ok by exact Hnodes.
    erewrite bind_ok by exact Hloop. reflexivity.
  - unfold getRbfSceneSetupsInfo. erewrite bind_ok by exact Hnodes.
    erewrite bind_ok by exact Hloop. cbn [negb].
    destruct Hempty as [l Hl].
    erewrite bind_ok by (unfold lift, pop; by rewrite Hl). reflexivity.
  - apply lookup_delete_eq.
  - done.
  - intros n Hn. exists (stored n).
    destruct (Hfiled n Hn) as (l & Hl & Hnl). exists l.
    split; [by apply Hread |]. split; [done |]. split; [done |].
    intros k' l' Hl' Hnl'. by destruct (proj2 (Hlists _ _ Hl') _ Hnl').
  - intros k l Hl. destruct (Hlists _ _ Hl) as [Hndl Hmem].
    split; [done |]. intros n Hn. by destruct (Hmem _ Hn).
Qed.

Lemma getRbfSceneSetupsInfo_partition_witness :
  exists d : gmap pyval (list string),
    getRbfSceneSetupsInfo true Sample.scene0 = (Ok d, Sample.scene0) /\
    getRbfSceneSetupsInfo false Sample.scene0
    = (Ok (delete (PyStr "empty") d), Sample.scene0).
Proof.
  destruct (getRbfSceneSetupsInfo_partition Sample.scene0)
    as (nodes & d & _ & Hall & Hnon & _).
  - unfold scene_wf, Sample.scene0.
    repeat (apply map_Forall_insert_2; [reflexivity |]).
    apply map_Forall_empty.
  - exists d. split; assumption.
Defined.

(** ** Further properties of the module *)

(** *** Driven groups *)

Lemma fresh_name_fresh (s : scene) (name d : string) :
  fresh_name s name = Some d -> s !! d = None.
Proof.
  unfold fresh_name. destruct (s !! name) eqn:Hn; [|by intros [= <-]].
  destruct (list_find _ _) as [[i k]|] eqn:Hf; [|done].
  intros [= <-]. apply list_find_Some in Hf as (_ & Hk & _).
  by apply bool_decide_unpack in Hk.
Qed.

Lemma children_spec (name type : string) (s : scene) :
  let l := (filter (fun kv : string * scene_node =>
                      nparent (snd kv) = Some name /\ ntype (snd kv) = type)
                   (map_to_list s)).*1 in
  NoDup l /\
  forall m, m ∈ l <->
    exists ndm, s !! m = Some ndm /\ nparent ndm = Some name /\
                ntype ndm = type.
Proof.
  intros l. split.
  - apply (sublist_NoDup _ ((map_to_list s).*1));
      [apply NoDup_fst_map_to_list |].
    apply fmap_sublist, sublist_filter.
  - intros m. unfold l. rewrite list_elem_of_fmap. split.
    + intros ([m' ndm] & -> & Hin).
      apply list_elem_of_filter in Hin as [[Hp Ht] Hin].
      apply elem_of_map_to_list in Hin. eauto.
    + intros (ndm & Hm & Hp & Ht). exists (m, ndm). split; [done |].
      apply list_elem_of_filter. split; [done |].
      by apply elem_of_map_to_list.
Qed.

Lemma NoDup_only (l : list string) (a : string) :
  NoDup l -> (forall m, m ∈ l <-> m = a) -> l = [a].
Proof.
  intros Hnd Hin. destruct l as [|x l].
  - pose proof (proj2 (Hin a) eq_refl) as Ha. by apply elem_of_nil in Ha.
  - assert (x = a) as -> by (apply Hin; left).
    destruct l as [|y l]; [done |].
    assert (y = a) as -> by (apply Hin; right; left).
    apply NoDup_cons in Hnd as [Hnot _]. destruct Hnot. left.
Qed.

Lemma listRelatives_type_none (s : scene) (name type : string) nd :
  s !! name = Some nd ->
  (forall m ndm, s !! m = Some ndm -> nparent ndm = Some name ->
                 ntype ndm <> type) ->
  mc.listRelatives_type name type s = (Ok None, s).
Proof.
  intros Hn Hnone. unfold mc.listRelatives_type. rewrite Hn.
  destruct (children_spec name type s) as [_ Hin].
  destruct ((filter _ (map_to_list s)).*1) as [|m l] eqn:Hl; [done |].
  destruct (proj1 (Hin m)) as (ndm & Hm & Hp & Ht); [left |].
  by destruct (Hnone m ndm Hm Hp).
Qed.

Lemma listRelatives_type_single (s : scene) (name type c : string) nd :
  s !! name = Some nd ->
  (forall m, (exists ndm, s !! m = Some ndm /\ nparent ndm = Some name /\
                          ntype ndm = type) <-> m = c) ->
  mc.listRelatives_type name type s = (Ok (Some [c]), s).
Proof.
  intros Hn Honly. unfold mc.listRelatives_type. rewrite Hn.
  destruct (children_spec name type s) as [Hnd Hin].
  rewrite (NoDup_only _ c Hnd); [done |].
  intros m. by rewrite Hin, Honly.
Qed.

(** X1.  [addDrivenGroup] on a node without a parent: nothing is created and the
    name of the node itself is returned. *)
Theorem addDrivenGroup_top_level (s : scene) (node : string) (nd : scene_node) :
  s !! node = Some nd ->
  nparent nd = None ->
  addDrivenGroup node s = (Ok node, s).
Proof.
  intros Hn Hp. unfold addDrivenGroup.
  erewrite bind_ok; last first.
  { unfold mc.listRelatives_p. by rewrite Hn, Hp. }
  reflexivity.
Qed.

Lemma addDrivenGroup_top_level_witness :
  addDrivenGroup "root" Sample.scene0 = (Ok "root", Sample.scene0).
Proof.
  apply (addDrivenGroup_top_level Sample.scene0 "root" (Sample.xf None));
    vm_compute; reflexivity.
Defined.

(** What [addDrivenGroup] does on a control that has a parent: a new
    transform [d] under that parent, and the control under [d]. *)
Lemma addDrivenGroup_run (s : scene) (node p d : string) (nd : scene_node) :
  s !! node = Some nd ->
  nparent nd = Some p ->
  is_Some (s !! p) ->
  endswith node CTL_SUFFIX = true ->
  fresh_name s (replace node CTL_SUFFIX DRIVEN_SUFFIX) = Some d ->
  addDrivenGroup node s
  = (Ok d, <[node := set_parent nd (Some d)]>
             (<[d := mkNode "transform" (Some p) ∅]> s)).
Proof.
  intros Hn Hp [ndp Hndp] Hsuf Hfresh.
  pose proof (fresh_name_fresh _ _ _ Hfresh) as Hd.
  assert (node <> d) as Hnd by congruence.
  assert (p <> d) as Hpd by congruence.
  unfold addDrivenGroup.
  erewrite bind_ok; last first.
  { unfold mc.listRelatives_p. by rewrite Hn, Hp. }
  cbn [or_ truthy truthy_option truthy_list negb]. rewrite Hsuf.
  erewrite bind_ok by reflexivity. erewrite bind_ok by reflexivity.
  erewrite bind_ok; last first.
  { unfold mc.group. by rewrite Hndp, Hfresh. }
  erewrite bind_ok; last first.
  { unfold mc.parent.
    rewrite lookup_insert_ne, Hn, lookup_insert_eq by done.
    rewrite bool_decide_eq_false_2 by congruence. reflexivity. }
  reflexivity.
Qed.

(** X2.  On a control that has a parent, [addDrivenGroup] creates one node, a
    transform under that parent whose name is the one it returns, puts the
    control under it, and touches no other node. *)
Theorem addDrivenGroup_inserts_group
    (s : scene) (node p d : string) (nd : scene_node) :
  s !! node = Some nd ->
  nparent nd = Some p ->
  is_Some (s !! p) ->
  endswith node CTL_SUFFIX = true ->
  fresh_name s (replace node CTL_SUFFIX DRIVEN_SUFFIX) = Some d ->
  exists s' : scene,
    addDrivenGroup node s = (Ok d, s') /\
    s !! d = None /\
    s' !! d = Some (mkNode "transform" (Some p) ∅) /\
    s' !! node = Some (set_parent nd (Some d)) /\
    forall m, m <> d -> m <> node -> s' !! m = s !! m.
Proof.
  intros Hn Hp Hpar Hsuf Hfresh.
  pose proof (fresh_name_fresh _ _ _ Hfresh) as Hd.
  eexists. split; [by apply addDrivenGroup_run |].
  split; [done |]. split; [|split].
  - rewrite lookup_insert_ne by congruence. apply lookup_insert_eq.
  - apply lookup_insert_eq.
  - intros m Hmd Hmn. by rewrite !lookup_insert_ne.
Qed.

Lemma addDrivenGroup_inserts_group_witness :
  exists s' : scene,
    addDrivenGroup "arm_ctl" Sample.scene0 = (Ok "arm_driven", s') /\
    s' !! "arm_ctl" = Some (Sample.xf (Some "arm_driven")).
Proof.
  destruct (addDrivenGroup_inserts_group Sample.scene0 "arm_ctl" "root"
              "arm_driven" (Sample.xf (Some "root")))
    as (s' & Hrun & _ & _ & Hnode & _);
    [vm_compute; reflexivity | reflexivity | vm_compute; eauto
    | vm_compute; reflexivity | vm_compute; reflexivity |].
  exists s'. split; assumption.
Defined.

Lemma under_no_child (s : scene) (target : string) :
  (forall m ndm, s !! m = Some ndm -> nparent ndm <> Some target) ->
  forall fuel n, n <> target -> under s fuel target n = false.
Proof.
  intros Hnone. induction fuel as [|fuel IH]; intros n Hne; simpl;
    rewrite bool_decide_eq_false_2 by done; [done |].
  destruct (s !! n) as [ndn|] eqn:Hn; [|done].
  destruct (nparent ndn) as [q|] eqn:Hq; [|done].
  apply IH. intros ->. by destruct (Hnone n ndn Hn).
Qed.

Lemma delete_leaf (s : scene) (d : string) (g : scene_node) :
  s !! d = None ->
  nparent g <> Some d ->
  (forall m ndm, s !! m = Some ndm -> nparent ndm <> Some d) ->
  mc.delete d (<[d := g]> s) = (Ok PyNone, s).
Proof.
  intros Hd Hg Hnone. unfold mc.delete. rewrite lookup_insert_eq.
  f_equal. apply map_eq. intros i.
  assert (Hall : forall m ndm, (<[d := g]> s : scene) !! m = Some ndm ->
                               nparent ndm <> Some d).
  { intros m ndm. destruct (decide (d = m)) as [<-|Hne].
    - rewrite lookup_insert_eq. by intros [= <-].
    - rewrite lookup_insert_ne by done. apply Hnone. }
  destruct (decide (i = d)) as [->|Hne].
  - rewrite Hd. apply map_lookup_filter_None_2. right.
    intros x _. simpl. destruct (size _); simpl;
      by rewrite bool_decide_eq_true_2.
  - destruct (s !! i) as [x|] eqn:Hi.
    + apply map_lookup_filter_Some_2.
      * by rewrite lookup_insert_ne.
      * simpl. by apply under_no_child.
    + apply map_lookup_filter_None_2. left. by rewrite lookup_insert_ne.
Qed.

(** X3.  [removeDrivenGroup] undoes [addDrivenGroup]: on a transform control
    with a parent, in a scene where every parent is a node,
    [removeDrivenGroup] of the group [addDrivenGroup] returned gives back
    the scene [addDrivenGroup] started from. *)
Theorem removeDrivenGroup_after_addDrivenGroup
    (s : scene) (node p d : string) (nd : scene_node) :
  parents_exist s ->
  s !! node = Some nd ->
  ntype nd = "transform" ->
  nparent nd = Some p ->
  endswith node CTL_SUFFIX = true ->
  fresh_name s (replace node CTL_SUFFIX DRIVEN_SUFFIX) = Some d ->
  exists s1 : scene,
    addDrivenGroup node s = (Ok d, s1) /\
    removeDrivenGroup d s1 = (Ok PyNone, s).
Proof.
  intros Hpe Hn Ht Hp Hsuf Hfresh.
  pose proof (fresh_name_fresh _ _ _ Hfresh) as Hd.
  assert (is_Some (s !! p)) as Hpar by (by apply (Hpe node nd Hn)).
  assert (node <> d) as Hnd by congruence.
  assert (p <> d) as Hpd by (intros ->; rewrite Hd in Hpar; by destruct Hpar).
  assert (Hnone : forall m ndm, s !! m = Some ndm -> nparent ndm <> Some d).
  { intros m ndm Hm Hq. destruct (Hpe m ndm Hm d Hq) as [? ?]. congruence. }
  set (g := mkNode "transform" (Some p) ∅).
  set (s1 := (<[node := set_parent nd (Some d)]> (<[d := g]> s)) : scene).
  exists s1. split; [by apply addDrivenGroup_run |].
  assert (Hs1d : s1 !! d = Some g).
  { unfold s1. rewrite lookup_insert_ne by done. apply lookup_insert_eq. }
  assert (Hs1n : s1 !! node = Some (set_parent nd (Some d)))
    by apply lookup_insert_eq.
  unfold removeDrivenGroup.
  erewrite bind_ok; last first.
  { unfold mc.listRelatives_p. by rewrite Hs1d. }
  cbn [or_ truthy truthy_option truthy_list].
  erewrite bind_ok; last first.
  { apply (listRelatives_type_single s1 d "transform" node g Hs1d).
    intros m. split.
    - intros (ndm & Hm & Hq & _).
      destruct (decide (m = node)) as [|Hmn]; [done |]. exfalso.
      unfold s1 in Hm. rewrite lookup_insert_ne in Hm by done.
      destruct (decide (d = m)) as [<-|Hdm].
      + rewrite lookup_insert_eq in Hm. injection Hm as <-.
        simpl in Hq. congruence.
      + rewrite lookup_insert_ne in Hm by done. by apply (Hnone m ndm).
    - intros ->. eexists. split; [exact Hs1n |]. done. }
  erewrite bind_ok by reflexivity. cbn [for_each].
  erewrite bind_ok; last first.
  { erewrite bind_ok; last first.
    { erewrite bind_ok by reflexivity. erewrite bind_ok; [reflexivity |].
      unfold mc.parent. rewrite Hs1n.
      assert (is_Some (s1 !! p)) as [x ->].
      { unfold s1. destruct (decide (node = p)) as [<-|Hnp].
        - rewrite lookup_insert_eq. eauto.
        - by rewrite !lookup_insert_ne. }
      simpl. rewrite bool_decide_eq_false_2 by congruence. reflexivity. }
    reflexivity. }
  assert (set_parent (set_parent nd (Some d)) (Some p) = nd) as ->.
  { destruct nd. simpl in Hp. by subst. }
  assert ((<[node := nd]> s1 : scene) = <[d := g]> s) as ->.
  { unfold s1. rewrite insert_insert_eq, insert_insert_ne by done.
    by rewrite (insert_id s node nd). }
  erewrite bind_ok; [reflexivity |].
  apply delete_leaf; [done | simpl; congruence | done].
Qed.

Lemma removeDrivenGroup_after_addDrivenGroup_witness :
  exists s1 : scene,
    addDrivenGroup "arm_ctl" Sample.scene0 = (Ok "arm_driven", s1) /\
    removeDrivenGroup "arm_driven" s1 = (Ok PyNone, Sample.scene0).
Proof.
  apply (removeDrivenGroup_after_addDrivenGroup Sample.scene0 "arm_ctl" "root"
           "arm_driven" (Sample.xf (Some "root")));
    try (vm_compute; reflexivity).
  unfold parents_exist, Sample.scene0.
  repeat (apply map_Forall_insert_2;
          [intros q Hq; vm_compute in Hq; simplify_eq; vm_compute; eauto |]).
  apply map_Forall_empty.
Defined.

(** X4.  [removeDrivenGroup] on a node without a transform child raises
    [TypeError] (the missing list of children is iterated) before anything
    is reparented or deleted: the node is still there. *)
Theorem removeDrivenGroup_without_children
    (s : scene) (node : string) (nd : scene_node) :
  s !! node = Some nd ->
  (forall m ndm, s !! m = Some ndm -> nparent ndm = Some node ->
                 ntype ndm <> "transform") ->
  removeDrivenGroup node s = (Raise TypeError, s).
Proof.
  intros Hn Hnone. unfold removeDrivenGroup.
  assert (exists r, mc.listRelatives_p node s = (Ok r, s)) as [r Hr].
  { unfold mc.listRelatives_p. rewrite Hn. destruct (nparent nd); eauto. }
  erewrite bind_ok by exact Hr.
  erewrite bind_ok by (by apply (listRelatives_type_none s node _ nd)).
  reflexivity.
Qed.

Lemma removeDrivenGroup_without_children_witness :
  removeDrivenGroup "arm" Sample.scene0 = (Raise TypeError, Sample.scene0).
Proof.
  apply (removeDrivenGroup_without_children Sample.scene0 "arm"
           (Sample.xf (Some "root"))); [vm_compute; reflexivity |].
  intros m ndm Hm Hp.
  assert (map_Forall (fun (_ : string) (x : scene_node) =>
                        nparent x <> Some "arm") Sample.scene0) as Hall.
  { unfold Sample.scene0.
    repeat (apply map_Forall_insert_2; [vm_compute; discriminate |]).
    apply map_Forall_empty. }
  by destruct (Hall m ndm Hm).
Defined.

(** *** Creating and deleting the helper attributes *)

Lemma deleteRBFToggleAttr_eq (node : string) (s : scene) :
  deleteRBFToggleAttr node s =
    match mc.deleteAttr (node +:+ "." +:+ RBF_SCALE_ATTR) s with
    | (Ok _, s') => (Ok PyNone, s')
    | (Raise e, s') =>
        if isinstance e ValueError then (Ok PyNone, s') else (Raise e, s')
    end.
Proof.
  unfold deleteRBFToggleAttr. rewrite suppressing_helper.
  unfold bind at 1, lift. by rewrite format_plug.
Qed.

Lemma create_attr_twice (node ln : string) (d : attr_decl) (s s1 : scene) v :
  (try_except (mc.addAttr node ln d) RuntimeError (ret PyNone) ;;; ret PyNone) s
  = (Ok v, s1) ->
  (try_except (mc.addAttr node ln d) RuntimeError (ret PyNone) ;;; ret PyNone) s1
  = (Ok PyNone, s1).
Proof.
  rewrite !suppressing_helper.
  destruct (addAttr_outcome node ln d s)
    as [(nd & Hn & Ha & ->)|[(nd & Hn & Ha & ->)|[Hn ->]]]; simpl.
  - intros [= <- <-]. unfold mc.addAttr.
    rewrite lookup_insert_eq. simpl. by rewrite lookup_insert_eq.
  - intros [= <- <-]. unfold mc.addAttr. rewrite Hn.
    by destruct Ha as [a ->].
  - done.
Qed.

(** X5.  [createRBFToggleAttr] and [createDriverControlAttr] can be repeated:
    once a call has returned, a second call returns as well and leaves the
    scene as the first call left it. *)
Theorem create_attr_helpers_idempotent (node : string) (s s1 : scene) :
  (forall v, createRBFToggleAttr node s = (Ok v, s1) ->
             createRBFToggleAttr node s1 = (Ok PyNone, s1)) /\
  (forall v, createDriverControlAttr node s = (Ok v, s1) ->
             createDriverControlAttr node s1 = (Ok PyNone, s1)).
Proof. split; intros v; apply create_attr_twice. Qed.

Lemma create_attr_helpers_idempotent_witness :
  exists s1 : scene,
    createDriverControlAttr "wd1" Sample.scene0 = (Ok PyNone, s1) /\
    createDriverControlAttr "wd1" s1 = (Ok PyNone, s1).
Proof.
  eexists. split; [vm_compute; reflexivity |].
  eapply (proj2 (create_attr_helpers_idempotent "wd1" Sample.scene0 _)).
  vm_compute. reflexivity.
Defined.

Lemma del_attr_set_attr (nd : scene_node) (a : string) (v : attr) :
  nattrs nd !! a = None -> del_attr (set_attr nd a v) a = nd.
Proof.
  intros Ha. destruct nd as [t p attrs]. unfold del_attr, set_attr. simpl in *.
  by rewrite delete_insert_id.
Qed.

(** X6.  [deleteRBFToggleAttr] undoes [createRBFToggleAttr]: on a node of the
    scene that does not have the attribute [RBF_Multiplier], creating the
    attribute gives the node a float attribute of value 1, and deleting it
    gives back the scene one started from. *)
Theorem deleteRBFToggleAttr_after_create
    (s : scene) (node : string) (nd : scene_node) :
  s !! node = Some nd ->
  valid_name node = true ->
  nattrs nd !! RBF_SCALE_ATTR = None ->
  exists s1 : scene,
    createRBFToggleAttr node s = (Ok PyNone, s1) /\
    mc.getAttr (node +:+ "." +:+ RBF_SCALE_ATTR) s1 = (Ok (PyFloat 1), s1) /\
    deleteRBFToggleAttr node s1 = (Ok PyNone, s).
Proof.
  intros Hn Hv Ha.
  exists (<[node := set_attr nd RBF_SCALE_ATTR (AFloat 1)]> s).
  split; [|split].
  - unfold createRBFToggleAttr. rewrite suppressing_helper.
    unfold mc.addAttr. by rewrite Hn, Ha.
  - unfold mc.getAttr.
    rewrite (resolve_join _ node _ _ Hv (lookup_insert_eq _ _ _)). simpl.
    by rewrite lookup_insert_eq.
  - rewrite deleteRBFToggleAttr_eq. unfold mc.deleteAttr.
    rewrite (resolve_join _ node _ _ Hv (lookup_insert_eq _ _ _)). simpl.
    rewrite lookup_insert_eq, insert_insert_eq.
    by rewrite (del_attr_set_attr nd _ _ Ha), insert_id.
Qed.

Lemma deleteRBFToggleAttr_after_create_witness :
  exists s1 : scene,
    createRBFToggleAttr "wd1" Sample.scene0 = (Ok PyNone, s1) /\
    deleteRBFToggleAttr "wd1" s1 = (Ok PyNone, Sample.scene0).
Proof.
  destruct (deleteRBFToggleAttr_after_create Sample.scene0 "wd1"
              (Sample.wd (<["rbf_setup_name" := AString (Some "A")]> ∅)))
    as (s1 & Hc & _ & Hd); [vm_compute; reflexivity .. |].
  exists s1. split; assumption.
Defined.

(** X7.  [deleteRBFToggleAttr] never raises, whatever the node and the scene:
    it returns [None], afterwards the plug of the attribute denotes
    nothing, and a second call changes nothing. *)
Theorem deleteRBFToggleAttr_total (node : string) (s : scene) :
  exists s' : scene,
    deleteRBFToggleAttr node s = (Ok PyNone, s') /\
    resolve s' (node +:+ "." +:+ RBF_SCALE_ATTR) = None /\
    deleteRBFToggleAttr node s' = (Ok PyNone, s').
Proof.
  assert (Hgone : forall s0 : scene,
            resolve s0 (node +:+ "." +:+ RBF_SCALE_ATTR) = None ->
            deleteRBFToggleAttr node s0 = (Ok PyNone, s0)).
  { intros s0 Hr. rewrite deleteRBFToggleAttr_eq. unfold mc.deleteAttr.
    by rewrite Hr. }
  destruct (resolve s (node +:+ "." +:+ RBF_SCALE_ATTR))
    as [[[[n nd] a] v]|] eqn:Hr.
  - exists (<[n := del_attr nd a]> s).
    apply resolve_Some in Hr as Hparts. destruct Hparts as (Hn & Ha & Hp).
    assert (resolve (<[n := del_attr nd a]> s)
              (node +:+ "." +:+ RBF_SCALE_ATTR) = None) as Hr'.
    { unfold resolve. rewrite Hp, lookup_insert_eq. simpl.
      by rewrite lookup_delete_eq. }
    split; [|split; [done | by apply Hgone]].
    rewrite deleteRBFToggleAttr_eq. unfold mc.deleteAttr. by rewrite Hr.
  - exists s. split; [by apply Hgone |]. split; [done | by apply Hgone].
Qed.

Lemma getDriverControlAttr_value (node : string) (s : scene) :
  getDriverControlAttr node s
  = (Ok match resolve s (node +:+ "." +:+ DRIVER_CTL_ATTR_NAME) with
        | Some (_, _, _, a) => attr_value a
        | None => PyStr ""
        end, s).
Proof.
  unfold getDriverControlAttr, try_except, bind, lift.
  rewrite format_plug. unfold mc.getAttr.
  by destruct (resolve _ _) as [[[[n nd] a] v]|].
Qed.

(** X8.  The module-level [getDriverControlAttr] never raises and never changes
    the scene: it returns the value of the attribute, and the empty string
    when the node or the attribute does not exist. *)
Theorem getDriverControlAttr_total (node : string) (s : scene) :
  getDriverControlAttr node s
  = (Ok match resolve s (node +:+ "." +:+ DRIVER_CTL_ATTR_NAME) with
        | Some (_, _, _, a) => attr_value a
        | None => PyStr ""
        end, s).
Proof. apply getDriverControlAttr_value. Qed.

(** *** Writing the setup name and the driver control *)

Lemma setSetupName_run (s : scene) (node setupName : string) nd :
  s !! node = Some nd ->
  valid_name node = true ->
  (forall x, nattrs nd !! RBF_SETUP_ATTR <> Some (AFloat x)) ->
  setSetupName node setupName s
  = (Ok PyNone,
     <[node := set_attr nd RBF_SETUP_ATTR (AString (Some setupName))]> s).
Proof.
  intros Hn Hv Hty. unfold setSetupName.
  erewrite bind_ok; last first.
  { unfold mc.attributeQuery_ex. by rewrite Hn. }
  destruct (nattrs nd !! RBF_SETUP_ATTR) as [[x|o]|] eqn:Ha.
  - by destruct (Hty x).
  - rewrite bool_decide_eq_true_2 by eauto. cbn [negb].
    erewrite (bind_ok (ret PyNone)) by reflexivity.
    erewrite bind_ok by (unfold lift; by rewrite format_plug).
    erewrite bind_ok by (by apply (setAttr_string_join s node nd _ o)).
    reflexivity.
  - rewrite bool_decide_eq_false_2 by (intros [? ?]; done). cbn [negb].
    erewrite bind_ok; last first.
    { unfold mc.addAttr. by rewrite Hn, Ha. }
    erewrite bind_ok by (unfold lift; by rewrite format_plug).
    erewrite bind_ok; last first.
    { eapply (setAttr_string_join _ node _ _ None); [done | |].
      - apply lookup_insert_eq.
      - simpl. apply lookup_insert_eq. }
    unfold ret. by rewrite insert_insert_eq, set_attr_set_attr.
Qed.

Lemma setDriverControlAttr_run (s : scene) (node controlName : string) nd :
  s !! node = Some nd ->
  valid_name node = true ->
  (forall x, nattrs nd !! DRIVER_CTL_ATTR_NAME <> Some (AFloat x)) ->
  setDriverControlAttr node controlName s
  = (Ok PyNone,
     <[node := set_attr nd DRIVER_CTL_ATTR_NAME
                 (AString (Some controlName))]> s).
Proof.
  intros Hn Hv Hty. unfold setDriverControlAttr.
  erewrite bind_ok; last first.
  { unfold mc.attributeQuery_ex. by rewrite Hn. }
  destruct (nattrs nd !! DRIVER_CTL_ATTR_NAME) as [[x|o]|] eqn:Ha.
  - by destruct (Hty x).
  - rewrite bool_decide_eq_true_2 by eauto. cbn [negb].
    erewrite (bind_ok (ret PyNone)) by reflexivity.
    erewrite bind_ok by (unfold lift; by rewrite format_plug).
    erewrite bind_ok by (by apply (setAttr_string_join s node nd _ o)).
    reflexivity.
  - rewrite bool_decide_eq_false_2 by (intros [? ?]; done). cbn [negb].
    erewrite bind_ok; last first.
    { unfold createDriverControlAttr. rewrite suppressing_helper.
      unfold mc.addAttr. by rewrite Hn, Ha. }
    erewrite bind_ok by (unfold lift; by rewrite format_plug).
    erewrite bind_ok; last first.
    { eapply (setAttr_string_join _ node _ _ None); [done | |].
      - apply lookup_insert_eq.
      - simpl. apply lookup_insert_eq. }
    unfold ret. by rewrite insert_insert_eq, set_attr_set_attr.
Qed.

Lemma set_attr_comm (nd : scene_node) (a b : string) (x y : attr) :
  a <> b ->
  set_attr (set_attr nd a x) b y = set_attr (set_attr nd b y) a x.
Proof.
  intros Hab. unfold set_attr. simpl. f_equal.
  by apply insert_insert_ne.
Qed.

(** X9.  The last [setSetupName] wins: two calls in a row on a node leave the
    scene the second call alone would leave. *)
Theorem setSetupName_overwrites
    (s : scene) (node a b : string) (nd : scene_node) :
  s !! node = Some nd ->
  valid_name node = true ->
  (forall x, nattrs nd !! RBF_SETUP_ATTR <> Some (AFloat x)) ->
  (setSetupName node a ;;; setSetupName node b) s = setSetupName node b s.
Proof.
  intros Hn Hv Hty.
  erewrite bind_ok by (by apply setSetupName_run).
  erewrite setSetupName_run; [| apply lookup_insert_eq | done |].
  - rewrite (setSetupName_run s node b nd) by done.
    by rewrite insert_insert_eq, set_attr_set_attr.
  - intros x. simpl. by rewrite lookup_insert_eq.
Qed.

Lemma setSetupName_overwrites_witness :
  (setSetupName "wd1" "B" ;;; setSetupName "wd1" "C") Sample.scene0
  = setSetupName "wd1" "C" Sample.scene0.
Proof.
  apply (setSetupName_overwrites Sample.scene0 "wd1" "B" "C"
           (Sample.wd (<["rbf_setup_name" := AString (Some "A")]> ∅)));
    [vm_compute; reflexivity | vm_compute; reflexivity |].
  intros x. vm_compute. discriminate.
Defined.

(** X10.  The setup name and the driver control of a node are written
    independently: [setSetupName] and [setDriverControlAttr] on a node give
    the same scene in either order. *)
Theorem setSetupName_setDriverControlAttr_commute
    (s : scene) (node a c : string) (nd : scene_node) :
  s !! node = Some nd ->
  valid_name node = true ->
  (forall x, nattrs nd !! RBF_SETUP_ATTR <> Some (AFloat x)) ->
  (forall x, nattrs nd !! DRIVER_CTL_ATTR_NAME <> Some (AFloat x)) ->
  (setSetupName node a ;;; setDriverControlAttr node c) s
  = (setDriverControlAttr node c ;;; setSetupName node a) s.
Proof.
  intros Hn Hv Hs Hd.
  erewrite bind_ok by (by apply setSetupName_run).
  erewrite (bind_ok (setDriverControlAttr node c))
    by (by apply setDriverControlAttr_run).
  erewrite setDriverControlAttr_run; [| apply lookup_insert_eq | done |];
    last first.
  { intros x. simpl. by rewrite lookup_insert_ne. }
  erewrite setSetupName_run; [| apply lookup_insert_eq | done |];
    last first.
  { intros x. simpl. by rewrite lookup_insert_ne. }
  rewrite !insert_insert_eq. do 2 f_equal. by apply set_attr_comm.
Qed.

Lemma setSetupName_setDriverControlAttr_commute_witness :
  (setSetupName "wd1" "B" ;;; setDriverControlAttr "wd1" "arm_ctl")
    Sample.scene0
  = (setDriverControlAttr "wd1" "arm_ctl" ;;; setSetupName "wd1" "B")
      Sample.scene0.
Proof.
  apply (setSetupName_setDriverControlAttr_commute Sample.scene0 "wd1" "B"
           "arm_ctl"
           (Sample.wd (<["rbf_setup_name" := AString (Some "A")]> ∅)));
    [vm_compute; reflexivity | vm_compute; reflexivity | |];
    intros x; vm_compute; discriminate.
Defined.

Lemma resolve_valid (s : scene) (n a : string) :
  valid_name n = true ->
  resolve s (n +:+ "." +:+ a) =
    match s !! n with
    | Some nd =>
        match nattrs nd !! a with
        | Some v => Some (n, nd, a, v)
        | None => None
        end
    | None => None
    end.
Proof. intros Hv. unfold resolve. by rewrite split_plug_join. Qed.

Lemma getSetupName_value (s : scene) (m : string) :
  valid_name m = true ->
  getSetupName m s
  = (match s !! m with
     | None => Raise ValueError
     | Some ndm =>
         match nattrs ndm !! RBF_SETUP_ATTR with
         | None => Ok PyNone
         | Some a => Ok (attr_value a)
         end
     end, s).
Proof.
  intros Hv. unfold getSetupName, bind, mc.attributeQuery_ex.
  destruct (s !! m) as [ndm|] eqn:Hm; [|done].
  destruct (nattrs ndm !! RBF_SETUP_ATTR) as [a|] eqn:Ha.
  - rewrite bool_decide_eq_true_2 by eauto. cbn [negb]. unfold lift.
    rewrite format_plug. unfold mc.getAttr.
    by rewrite (resolve_valid s m _ Hv), Hm, Ha.
  - by rewrite bool_decide_eq_false_2 by (intros [? ?]; done).
Qed.

(** X11.  [setSetupName] writes the setup name of one node and nothing else a
    reader of the module can see: the driver control of every node, and
    the setup name of every other node, read as before. *)
Theorem setSetupName_frame
    (s : scene) (node setupName : string) (nd : scene_node) :
  s !! node = Some nd ->
  valid_name node = true ->
  (forall x, nattrs nd !! RBF_SETUP_ATTR <> Some (AFloat x)) ->
  exists s' : scene,
    setSetupName node setupName s = (Ok PyNone, s') /\
    forall m, valid_name m = true ->
      fst (getDriverControlAttr m s') = fst (getDriverControlAttr m s) /\
      (m <> node -> fst (getSetupName m s') = fst (getSetupName m s)).
Proof.
  intros Hn Hv Hty. eexists. split; [by apply setSetupName_run |].
  intros m Hm. split.
  - rewrite !getDriverControlAttr_value. simpl.
    rewrite !(resolve_valid _ m _ Hm).
    destruct (decide (node = m)) as [<-|Hne].
    + rewrite lookup_insert_eq, Hn. simpl.
      rewrite lookup_insert_ne by done.
      by destruct (nattrs nd !! DRIVER_CTL_ATTR_NAME).
    + rewrite lookup_insert_ne by done.
      destruct (s !! m) as [ndm|]; [|done].
      by destruct (nattrs ndm !! DRIVER_CTL_ATTR_NAME).
  - intros Hne. rewrite !(getSetupName_value _ m Hm). simpl.
    by rewrite lookup_insert_ne.
Qed.

Lemma setSetupName_frame_witness :
  exists s' : scene,
    setSetupName "wd1" "B" Sample.scene0 = (Ok PyNone, s') /\
    fst (getSetupName "wd2" s') = fst (getSetupName "wd2" Sample.scene0).
Proof.
  destruct (setSetupName_frame Sample.scene0 "wd1" "B"
              (Sample.wd (<["rbf_setup_name" := AString (Some "A")]> ∅)))
    as (s' & Hset & Hframe);
    [vm_compute; reflexivity | vm_compute; reflexivity
    | intros x; vm_compute; discriminate |].
  exists s'. split; [assumption |].
  apply (Hframe "wd2"); [vm_compute; reflexivity | discriminate].
Defined.

(** *** Scene queries *)

(** X12.  Every node [getSceneSetupNodes] returns is one [getSceneRBFNodes]
    returns. *)
Theorem getSceneSetupNodes_are_RBF_nodes (s : scene) :
  exists l1 l2 : list string,
    getSceneSetupNodes s = (Ok l1, s) /\
    getSceneRBFNodes s = (Ok l2, s) /\
    forall n, n ∈ l1 -> n ∈ l2.
Proof.
  destruct (setup_nodes_run s) as (l1 & H1 & _ & Hin1).
  destruct (ls_spec SUPPORTED_RBF_NODES s) as (l2 & H2 & _ & Hin2).
  exists l1, l2. split; [done |]. split.
  - unfold getSceneRBFNodes. erewrite bind_ok by exact H2.
    unfold ret. by rewrite or_nil_r.
  - intros n (nd & Hn & Ht & _)%Hin1. apply Hin2. eauto.
Qed.

(** X13.  With no setup node in the scene, [getRbfSceneSetupsInfo] returns the
    dict with the single entry ["empty": []], and the empty dict when
    [includeEmpty] is false. *)
Theorem getRbfSceneSetupsInfo_no_setup (s : scene) :
  (forall n nd, s !! n = Some nd -> ntype nd ∈ SUPPORTED_RBF_NODES ->
                nattrs nd !! RBF_SETUP_ATTR = None) ->
  getRbfSceneSetupsInfo true s = (Ok {[ PyStr "empty" := [] ]}, s) /\
  getRbfSceneSetupsInfo false s = (Ok ∅, s).
Proof.
  intros Hnone.
  destruct (setup_nodes_run s) as (l & Hrun & _ & Hin).
  assert (l = []) as ->.
  { destruct l as [|n l]; [done |].
    destruct (proj1 (Hin n)) as (nd & Hn & Ht & [a Ha]); [left |].
    rewrite (Hnone n nd Hn Ht) in Ha. done. }
  unfold getRbfSceneSetupsInfo. split.
  - erewrite bind_ok by exact Hrun. reflexivity.
  - erewrite bind_ok by exact Hrun.
    erewrite bind_ok by reflexivity. cbn [negb].
    erewrite bind_ok; last first.
    { unfold lift, pop. by rewrite lookup_singleton_eq. }
    unfold ret. simpl. by rewrite delete_singleton_eq.
Qed.

Lemma getRbfSceneSetupsInfo_no_setup_witness :
  getRbfSceneSetupsInfo false Sample.scene1 = (Ok ∅, Sample.scene1).
Proof.
  refine (proj2 (getRbfSceneSetupsInfo_no_setup Sample.scene1 _)).
  intros n nd Hn _.
  assert (map_Forall (fun (_ : string) (x : scene_node) =>
                        nattrs x !! RBF_SETUP_ATTR = None) Sample.scene1)
    as Hall.
  { unfold Sample.scene1. repeat (apply map_Forall_insert_2; [vm_compute; reflexivity |]).
    apply map_Forall_empty. }
  exact (Hall n nd Hn).
Defined.

(** How [getRbfSceneSetupsInfo] runs in a well-formed scene: the setup
    nodes, the value stored on each, and the dict built from them. *)
Lemma setups_info_run (s : scene) :
  scene_wf s ->
  exists (nodes : list string) (stored : string -> pyval)
         (d : gmap pyval (list string)),
    getSceneSetupNodes s = (Ok nodes, s) /\
    (forall n, n ∈ nodes <->
       exists nd, s !! n = Some nd /\ ntype nd ∈ SUPPORTED_RBF_NODES /\
                  is_Some (nattrs nd !! RBF_SETUP_ATTR)) /\
    (forall n, n ∈ nodes ->
       mc.getAttr (n +:+ "." +:+ RBF_SETUP_ATTR) s = (Ok (stored n), s)) /\
    d = foldl (fun d n => file_under d (setup_key (stored n)) n)
              {[ PyStr "empty" := [] ]} nodes /\
    getRbfSceneSetupsInfo true s = (Ok d, s) /\
    getRbfSceneSetupsInfo false s = (Ok (delete (PyStr "empty") d), s) /\
    filed (fun n => setup_key (stored n)) nodes d.
Proof.
  intros Hwf.
  destruct (setup_nodes_run s) as (nodes & Hnodes & Hnd & Hin).
  set (stored := fun n : string =>
         match s !! n with
         | Some nd =>
             match nattrs nd !! RBF_SETUP_ATTR with
             | Some a => attr_value a
             | None => PyNone
             end
         | None => PyNone
         end).
  assert (Hread : forall n, n ∈ nodes ->
            mc.getAttr (n +:+ "." +:+ RBF_SETUP_ATTR) s = (Ok (stored n), s)).
  { intros n (nd & Hn & _ & [a Ha])%Hin. unfold mc.getAttr, stored.
    by rewrite (resolve_join s n _ nd (Hwf _ _ Hn) Hn), Hn, Ha. }
  set (d0 := {[ PyStr "empty" := [] ]} : gmap pyval (list string)).
  assert (Hd0 : is_Some (d0 !! PyStr "empty")).
  { unfold d0. rewrite lookup_singleton_eq. eauto. }
  pose proof (setups_loop_run s stored nodes d0 Hread Hd0) as Hloop.
  pose proof (filed_foldl stored nodes [] d0 (filed_initial stored) Hnd)
    as Hfiled.
  pose proof (foldl_file_under_keeps
                (fun n => setup_key (stored n)) (PyStr "empty") nodes d0 Hd0)
    as Hempty.
  exists nodes, stored, (foldl (fun d n => file_under d (setup_key (stored n)) n)
                           d0 nodes).
  split; [done |]. split; [done |]. split; [done |]. split; [done |].
  split; [|split; [|done]].
  - unfold getRbfSceneSetupsInfo. erewrite bind_ok by exact Hnodes.
    erewrite bind_ok by exact Hloop. reflexivity.
  - unfold getRbfSceneSetupsInfo. erewrite bind_ok by exact Hnodes.
    erewrite bind_ok by exact Hloop. cbn [negb].
    destruct Hempty as [l Hl].
    erewrite bind_ok by (unfold lift, pop; by rewrite Hl). reflexivity.
Qed.

Lemma foldl_file_under_nonempty (key : string -> pyval) (k0 : pyval)
    (rest : list string) :
  forall d : gmap pyval (list string),
    (forall k l, d !! k = Some l -> k <> k0 -> l <> []) ->
    forall k l,
      foldl (fun d n => file_under d (key n) n) d rest !! k = Some l ->
      k <> k0 -> l <> [].
Proof.
  induction rest as [|n rest IH]; intros d Hd; [done |].
  cbn [foldl]. apply IH. intros k l. unfold file_under.
  destruct (decide (key n = k)) as [<-|Hne].
  - rewrite lookup_insert_eq. intros [= <-] _.
    by destruct (default [] (d !! key n)).
  - rewrite lookup_insert_ne by done. apply Hd.
Qed.

(** X14.  No setup name is listed without a node: in the dict
    [getRbfSceneSetupsInfo] returns, every list except possibly the one at
    ["empty"] has an element. *)
Theorem getRbfSceneSetupsInfo_groups_nonempty (s : scene) (includeEmpty : bool) :
  scene_wf s ->
  exists d : gmap pyval (list string),
    getRbfSceneSetupsInfo includeEmpty s = (Ok d, s) /\
    forall k l, d !! k = Some l -> k <> PyStr "empty" -> l <> [].
Proof.
  intros Hwf.
  destruct (setups_info_run s Hwf)
    as (nodes & stored & d & _ & _ & _ & Hd & Hall & Hnon & _).
  assert (Hne : forall k l, d !! k = Some l -> k <> PyStr "empty" -> l <> []).
  { rewrite Hd. apply foldl_file_under_nonempty.
    intros k l Hl Hk. apply lookup_singleton_Some in Hl as [<- _]. done. }
  destruct includeEmpty.
  - exists d. split; [done | exact Hne].
  - exists (delete (PyStr "empty") d). split; [done |].
    intros k l Hl Hk. rewrite lookup_delete_ne in Hl by done. eauto.
Qed.

Lemma sample_scene0_wf : scene_wf Sample.scene0.
Proof.
  unfold scene_wf, Sample.scene0.
  repeat (apply map_Forall_insert_2; [reflexivity |]).
  apply map_Forall_empty.
Defined.

Lemma getRbfSceneSetupsInfo_groups_nonempty_witness :
  exists d : gmap pyval (list string),
    getRbfSceneSetupsInfo false Sample.scene0 = (Ok d, Sample.scene0) /\
    forall k l, d !! k = Some l -> k <> PyStr "empty" -> l <> [].
Proof.
  exact (getRbfSceneSetupsInfo_groups_nonempty Sample.scene0 false
           sample_scene0_wf).
Defined.

(** X15.  With [includeEmpty] false, the setup nodes that are left out are those
    whose stored setup name is the empty string or the string ["empty"]:
    every other setup node is in a list of the result, and these are in
    none. *)
Theorem getRbfSceneSetupsInfo_without_empty (s : scene) :
  scene_wf s ->
  exists (nodes : list string) (d : gmap pyval (list string)),
    getSceneSetupNodes s = (Ok nodes, s) /\
    getRbfSceneSetupsInfo false s = (Ok d, s) /\
    forall n, n ∈ nodes ->
      exists v,
        mc.getAttr (n +:+ "." +:+ RBF_SETUP_ATTR) s = (Ok v, s) /\
        ((exists k l, d !! k = Some l /\ n ∈ l) <->
         v <> PyStr "" /\ v <> PyStr "empty").
Proof.
  intros Hwf.
  destruct (setups_info_run s Hwf)
    as (nodes & stored & d & Hnodes & _ & Hread & _ & _ & Hnon & Hlists & Hfiled).
  exists nodes, (delete (PyStr "empty") d). split; [done |]. split; [done |].
  intros n Hn. exists (stored n). split; [by apply Hread |]. split.
  - intros (k & l & Hl & Hnl).
    apply lookup_delete_Some in Hl as [Hk Hl].
    destruct (proj2 (Hlists _ _ Hl) _ Hnl) as [_ Hkey]. simpl in Hkey.
    unfold setup_key in Hkey. case_bool_decide as Hv; [congruence |].
    split; [done | congruence].
  - intros [Hv1 Hv2].
    destruct (Hfiled n Hn) as (l & Hl & Hnl). simpl in Hl.
    exists (setup_key (stored n)), l. split; [|done].
    rewrite lookup_delete_ne; [done |].
    unfold setup_key. rewrite bool_decide_eq_false_2 by done. congruence.
Qed.

Lemma getRbfSceneSetupsInfo_without_empty_witness :
  exists (nodes : list string) (d : gmap pyval (list string)),
    getSceneSetupNodes Sample.scene0 = (Ok nodes, Sample.scene0) /\
    getRbfSceneSetupsInfo false Sample.scene0 = (Ok d, Sample.scene0).
Proof.
  destruct (getRbfSceneSetupsInfo_without_empty Sample.scene0
              sample_scene0_wf) as (nodes & d & Hn & Hd & _).
  exists nodes, d. split; assumption.
Defined.

(** X16.  A setup name written with [setSetupName] on a node of a supported type
    is found by [getRbfSceneSetupsInfo]: the node is in the list at the key
    of that name. *)
Theorem setSetupName_then_getRbfSceneSetupsInfo
    (s : scene) (node setupName : string) (nd : scene_node) :
  scene_wf s ->
  s !! node = Some nd ->
  ntype nd ∈ SUPPORTED_RBF_NODES ->
  (forall x, nattrs nd !! RBF_SETUP_ATTR <> Some (AFloat x)) ->
  exists (s' : scene) (d : gmap pyval (list string)) (l : list string),
    setSetupName node setupName s = (Ok PyNone, s') /\
    getRbfSceneSetupsInfo true s' = (Ok d, s') /\
    d !! setup_key (PyStr setupName) = Some l /\
    node ∈ l.
Proof.
  intros Hwf Hn Ht Hty.
  pose proof (Hwf _ _ Hn) as Hv. simpl in Hv.
  set (nd' := set_attr nd RBF_SETUP_ATTR (AString (Some setupName))).
  set (s' := (<[node := nd']> s) : scene).
  assert (Hwf' : scene_wf s') by (by apply map_Forall_insert_2).
  destruct (setups_info_run s' Hwf')
    as (nodes & stored & d & _ & Hin & Hread & _ & Hall & _ & _ & Hfiled).
  assert (Hs'n : s' !! node = Some nd') by apply lookup_insert_eq.
  assert (Ha' : nattrs nd' !! RBF_SETUP_ATTR = Some (AString (Some setupName)))
    by apply lookup_insert_eq.
  assert (node ∈ nodes) as Hnode.
  { apply Hin. exists nd'. split; [done |]. split; [done |]. by rewrite Ha'. }
  assert (stored node = PyStr setupName) as Hstored.
  { pose proof (Hread node Hnode) as Hr. unfold mc.getAttr in Hr.
    rewrite (resolve_join s' node _ nd' Hv Hs'n), Ha' in Hr.
    simpl in Hr. congruence. }
  destruct (Hfiled node Hnode) as (l & Hl & Hnl). simpl in Hl.
  rewrite Hstored in Hl.
  exists s', d, l. split; [by apply setSetupName_run |]. done.
Qed.

Lemma setSetupName_then_getRbfSceneSetupsInfo_witness :
  exists (s' : scene) (d : gmap pyval (list string)) (l : list string),
    setSetupName "wd3" "B" Sample.scene0 = (Ok PyNone, s') /\
    getRbfSceneSetupsInfo true s' = (Ok d, s') /\
    d !! PyStr "B" = Some l /\
    "wd3" ∈ l.
Proof.
  apply (setSetupName_then_getRbfSceneSetupsInfo Sample.scene0 "wd3" "B"
           (Sample.wd (<["RBF_Multiplier" := AFloat 1]> ∅))
           sample_scene0_wf).
  - vm_compute; reflexivity.
  - by left.
  - intros x. vm_compute. discriminate.
Defined.

(** *** The class, continued *)

Lemma getDriverControlAttr_after_set (s s' : scene) (node c : string) v :
  setDriverControlAttr node c s = (Ok v, s') ->
  getDriverControlAttr node s' = (Ok (PyStr c), s').
Proof.
  intros Hset. unfold setDriverControlAttr in Hset.
  apply bind_inv_ok in Hset as (ex & s1 & _ & Hset).
  apply bind_inv_ok in Hset as (? & s2 & _ & Hset).
  apply bind_inv_ok in Hset as (plug & s3 & Hplug & Hset).
  apply bind_inv_ok in Hset as (r & s4 & Hset & Hret).
  unfold lift in Hplug. rewrite format_plug in Hplug.
  injection Hplug as <- <-. injection Hret as <- <-.
  apply getAttr_setAttr_string in Hset.
  unfold getDriverControlAttr.
  apply try_except_ok. unfold bind at 1, lift. by rewrite format_plug.
Qed.

Lemma on_scene_inv_ok {A} (m : M scene A) (w w' : RBFNode.world) (v : A) :
  RBFNode.on_scene m w = (Ok v, w') ->
  m (RBFNode.w_scene w) = (Ok v, RBFNode.w_scene w') /\
  RBFNode.w_self w' = RBFNode.w_self w.
Proof.
  unfold RBFNode.on_scene. destruct (m (RBFNode.w_scene w)) as [r s'].
  by intros [= -> <-].
Qed.

(** X17.  The method pair [setDriverControlAttr] / [getDriverControlAttr] of an
    instance, for any class: a non-empty control name that was set is the
    one returned, without a call of [getDriverNode]; setting the empty
    string makes [getDriverControlAttr] answer from [getDriverNode]. *)
Theorem RBFNode_setDriverControlAttr_then_get
    (cls : RBFNode.methods) (w w' : RBFNode.world) (c : string) (v : pyval) :
  RBFNode.setDriverControlAttr c w = (Ok v, w') ->
  (c <> "" ->
     RBFNode.getDriverControlAttr cls w' = (Ok (PyStr c), w')) /\
  (c = "" ->
     RBFNode.getDriverControlAttr cls w'
     = (l <- RBFNode.getDriverNode cls ;;
        x <- lift (item0 l) ;;
        ret (PyStr x)) w').
Proof.
  intros Hset. unfold RBFNode.setDriverControlAttr in Hset.
  apply bind_inv_ok in Hset as (n & w1 & Hname & Hset).
  injection Hname as <- <-.
  apply bind_inv_ok in Hset as (r & w2 & Hset & Hret).
  injection Hret as _ <-.
  apply on_scene_inv_ok in Hset as [Hset Hself].
  apply getDriverControlAttr_after_set in Hset.
  assert (Hget : RBFNode.on_scene
                   (getDriverControlAttr (RBFNode.name (RBFNode.w_self w2))) w2
                 = (Ok (PyStr c), w2)).
  { rewrite Hself. erewrite on_scene_eq by exact Hset. by destruct w2. }
  unfold RBFNode.getDriverControlAttr.
  erewrite bind_ok by reflexivity.
  erewrite bind_ok by exact Hget.
  split.
  - intros Hc. rewrite bool_decide_eq_false_2 by congruence. reflexivity.
  - intros ->. rewrite bool_decide_eq_true_2 by done.
    unfold bind. destruct (RBFNode.getDriverNode cls w2) as [[l|e] w3]; [|done].
    unfold lift. by destruct (item0 l).
Qed.

Lemma RBFNode_setDriverControlAttr_then_get_witness :
  exists w' : RBFNode.world,
    RBFNode.setDriverControlAttr "arm"
      (RBFNode.mkWorld Sample.scene0 (RBFNode.mkInstance "wd1" PyNone None))
    = (Ok PyNone, w') /\
    RBFNode.getDriverControlAttr RBFNode.base w' = (Ok (PyStr "arm"), w').
Proof.
  eexists. split; [vm_compute; reflexivity |].
  refine (proj1 (RBFNode_setDriverControlAttr_then_get RBFNode.base
                   (RBFNode.mkWorld Sample.scene0
                      (RBFNode.mkInstance "wd1" PyNone None)) _ "arm" PyNone _)
            _); [vm_compute; reflexivity | discriminate].
Defined.

(** X18.  Construction with the base class itself: [RBFNode(name)] returns an
    instance exactly when [name] is a scene node of a supported type (with
    [rbfType] that type and [transformNode] [None]); for any other name it
    raises [NotImplementedError] and the scene is untouched. *)
Theorem RBFNode_base_new (name : string) (s : scene) :
  (forall nd,
     s !! name = Some nd -> ntype nd ∈ SUPPORTED_RBF_NODES ->
     RBFNode.new RBFNode.base name s
     = (Ok PyNone,
        RBFNode.mkWorld s
          (RBFNode.mkInstance name PyNone (Some (ntype nd))))) /\
  ((forall nd, s !! name = Some nd -> ntype nd ∉ SUPPORTED_RBF_NODES) ->
     RBFNode.new RBFNode.base name s
     = (Raise NotImplementedError,
        RBFNode.mkWorld s (RBFNode.mkInstance name PyNone None))).
Proof.
  split.
  - intros nd Hn Ht. unfold RBFNode.new.
    by rewrite (init_supported _ name s _ nd Hn Ht).
  - intros Ht. unfold RBFNode.new. by rewrite init_unsupported.
Qed.

Lemma RBFNode_base_new_witness :
  RBFNode.new RBFNode.base "arm" Sample.scene0
  = (Raise NotImplementedError,
     RBFNode.mkWorld Sample.scene0 (RBFNode.mkInstance "arm" PyNone None)).
Proof.
  apply (proj2 (RBFNode_base_new "arm" Sample.scene0)).
  intros nd Hnd. vm_compute in Hnd. injection Hnd as <-.
  intros Hin. apply list_elem_of_singleton in Hin. discriminate.
Defined.

(** X19.  [formatName] with the base class's [nodeType_suffix]: the first call
    returns the name followed by ["None"] (the method assigns the suffix to
    an attribute and returns nothing), and that attribute then hides the
    method, so a second call raises [TypeError]. *)
Theorem formatName_base (o : RBFNode.named) :
  RBFNode.n_suffix o = None ->
  exists o1 : RBFNode.named,
    RBFNode.formatName RBFNode.nodeType_suffix o
    = (Ok (RBFNode.name (RBFNode.n_self o) +:+ "None"), o1) /\
    RBFNode.n_suffix o1 = Some GENERIC_SUFFIX /\
    RBFNode.formatName RBFNode.nodeType_suffix o1 = (Raise TypeError, o1).
Proof.
  intros Hs. eexists. split; [|split].
  - unfold RBFNode.formatName. rewrite Hs.
    erewrite bind_ok by reflexivity. unfold lift. simpl.
    by rewrite append_empty_r.
  - reflexivity.
  - reflexivity.
Qed.

Lemma formatName_base_witness :
  exists o1 : RBFNode.named,
    RBFNode.formatName RBFNode.nodeType_suffix
      (RBFNode.mkNamed (RBFNode.mkInstance "wd1" PyNone None) None)
    = (Ok "wd1None", o1) /\
    RBFNode.formatName RBFNode.nodeType_suffix o1 = (Raise TypeError, o1).
Proof.
  destruct (formatName_base
              (RBFNode.mkNamed (RBFNode.mkInstance "wd1" PyNone None) None)
              eq_refl) as (o1 & H1 & _ & H2).
  exists o1. split; assumption.
Defined.

(** *** [resetDrivenNodes] *)

(** X20.  [resetDrivenNodes] on a node of the scene, for any reset function.
    When the node has no transform child while a node with the control's
    name exists, the membership test on the missing list of children raises
    [TypeError] and nothing is reset.  When no node has the control's name,
    only the node is reset.  When the control is a transform child of the
    node, the control is reset, then the node. *)
Theorem resetDrivenNodes_cases
    (resetTransform : string -> M scene pyval)
    (s : scene) (node : string) (nd : scene_node) :
  s !! node = Some nd ->
  let controlNode := replace node DRIVEN_SUFFIX CTL_SUFFIX in
  ((forall m ndm, s !! m = Some ndm -> nparent ndm = Some node ->
                  ntype ndm <> "transform") ->
   is_Some (s !! controlNode) ->
   resetDrivenNodes resetTransform node s = (Raise TypeError, s)) /\
  (s !! controlNode = None ->
   resetDrivenNodes resetTransform node s
   = (resetTransform node ;;; ret PyNone) s) /\
  (forall ndc,
     s !! controlNode = Some ndc ->
     nparent ndc = Some node ->
     ntype ndc = "transform" ->
     resetDrivenNodes resetTransform node s
     = (resetTransform controlNode ;;; resetTransform node ;;; ret PyNone) s).
Proof.
  intros Hn controlNode. split; [|split].
  - intros Hnone Hc. unfold resetDrivenNodes.
    erewrite bind_ok by (by apply (listRelatives_type_none s node _ nd)).
    fold controlNode.
    erewrite bind_ok; last first.
    { unfold mc.objExists. by rewrite bool_decide_eq_true_2. }
    reflexivity.
  - intros Hc. unfold resetDrivenNodes.
    assert (exists r, mc.listRelatives_type node "transform" s = (Ok r, s))
      as [r Hr] by (unfold mc.listRelatives_type; rewrite Hn; eauto).
    erewrite bind_ok by exact Hr. fold controlNode.
    erewrite bind_ok; last first.
    { unfold mc.objExists. rewrite Hc.
      by rewrite bool_decide_eq_false_2 by (intros [? ?]; done). }
    erewrite bind_ok by reflexivity. reflexivity.
  - intros ndc Hc Hp Ht. unfold resetDrivenNodes.
    destruct (children_spec node "transform" s) as [_ Hin].
    assert (Hmem : controlNode ∈
              (filter (fun kv : string * scene_node =>
                         nparent (snd kv) = Some node /\
                         ntype (snd kv) = "transform")
                      (map_to_list s)).*1) by (apply Hin; eauto).
    erewrite bind_ok; last first.
    { unfold mc.listRelatives_type. rewrite Hn. reflexivity. }
    fold controlNode.
    erewrite bind_ok; last first.
    { unfold mc.objExists. rewrite Hc. by rewrite bool_decide_eq_true_2. }
    erewrite bind_ok; last first.
    { unfold lift. destruct ((filter _ (map_to_list s)).*1) as [|x l] eqn:Hl.
      - by apply elem_of_nil in Hmem.
      - simpl. by rewrite bool_decide_eq_true_2. }
    reflexivity.
Qed.

Lemma resetDrivenNodes_cases_witness :
  resetDrivenNodes (fun _ => ret PyNone) "arm" Sample.scene0
  = (Raise TypeError, Sample.scene0).
Proof.
  refine (proj1 (resetDrivenNodes_cases (fun _ => ret PyNone) Sample.scene0
                   "arm" (Sample.xf (Some "root")) _) _ _).
  - vm_compute; reflexivity.
  - intros m ndm Hm Hp.
    assert (map_Forall (fun (_ : string) (x : scene_node) =>
                          nparent x <> Some "arm") Sample.scene0) as Hall.
    { unfold Sample.scene0.
      repeat (apply map_Forall_insert_2; [vm_compute; discriminate |]).
      apply map_Forall_empty. }
    by destruct (Hall m ndm Hm).
  - vm_compute. eauto.
Defined.

(** *** [getPoseValues] *)

Section pose_values.

Variables tx ty tz rx ry rz sx sy sz : pyval.
Variable other : string -> pyval.
Variable drivenNode : string.
Variable w : RBFNode.world.

Let value (attr : string) : pyval :=
  pose_value (tx, ty, tz) (rx, ry, rz) (sx, sy, sz) other attr.

Let transform_attrs : list string :=
  TRANSLATE_ATTRS ++ ROTATE_ATTRS ++ SCALE_ATTRS.

(** The attribute is one of the nine, or its plug can be read. *)
Let readable (attr : string) : Prop :=
  attr ∉ transform_attrs ->
  mc.getAttr (drivenNode +:+ "." +:+ attr) (RBFNode.w_scene w)
  = (Ok (other attr), RBFNode.w_scene w).

(** One round of the loop stores the pose value of the attribute. *)
Lemma pose_loop_step (attr : string) (rest : list string)
    (d : gmap string pyval) :
  readable attr ->
  RBFNode.pose_loop drivenNode [tx; ty; tz] [rx; ry; rz] [sx; sy; sz]
    (attr :: rest) d w
  = RBFNode.pose_loop drivenNode [tx; ty; tz] [rx; ry; rz] [sx; sy; sz]
      rest (<[attr := value attr]> d) w.
Proof.
  intros Hread. cbn [RBFNode.pose_loop].
  destruct (decide (attr ∈ transform_attrs)) as [Hin|Hout].
  - unfold transform_attrs, TRANSLATE_ATTRS, ROTATE_ATTRS, SCALE_ATTRS in Hin.
    simpl in Hin.
    repeat (apply elem_of_cons in Hin as [->|Hin]; [reflexivity |]).
    by apply elem_of_nil in Hin.
  - assert ((attr ∉ TRANSLATE_ATTRS) /\ (attr ∉ ROTATE_ATTRS) /\
            (attr ∉ SCALE_ATTRS)) as (Ht & Hr & Hs).
    { unfold transform_attrs in Hout.
      rewrite !elem_of_app in Hout. tauto. }
    rewrite !bool_decide_eq_false_2 by done.
    erewrite bind_ok; last first.
    { erewrite bind_ok by (unfold lift; by rewrite format_plug).
      apply on_scene_eq. by apply Hread. }
    assert (value attr = other attr) as ->.
    { unfold value, pose_value.
      repeat case_bool_decide; try reflexivity;
        exfalso; apply Hout; subst attr;
        unfold transform_attrs, TRANSLATE_ATTRS, ROTATE_ATTRS, SCALE_ATTRS;
        simpl; repeat (first [by left | right]). }
    by destruct w.
Qed.

Lemma pose_loop_run (attrs : list string) :
  (forall attr, attr ∈ attrs -> readable attr) ->
  forall d : gmap string pyval,
    RBFNode.pose_loop drivenNode [tx; ty; tz] [rx; ry; rz] [sx; sy; sz]
      attrs d w
    = (Ok (foldl (fun d attr => <[attr := value attr]> d) d attrs), w).
Proof.
  induction attrs as [|attr rest IH]; intros Hread d; [reflexivity |].
  rewrite pose_loop_step by (apply Hread; left).
  apply IH. intros a Ha. apply Hread. by right.
Qed.

Lemma foldl_insert_lookup (attrs : list string) :
  forall (d : gmap string pyval) (a : string),
    foldl (fun d attr => <[attr := value attr]> d) d attrs !! a
    = if decide (a ∈ attrs) then Some (value a) else d !! a.
Proof.
  induction attrs as [|x rest IH]; intros d a; cbn [foldl].
  - by rewrite decide_False by apply not_elem_of_nil.
  - rewrite IH. destruct (decide (a ∈ rest)) as [Hin|Hout].
    + rewrite decide_True; [done | by right].
    + destruct (decide (x = a)) as [->|Hne].
      * rewrite lookup_insert_eq, decide_True; [done | left].
      * rewrite lookup_insert_ne by done.
        rewrite decide_False; [done |].
        intros [->|?]%elem_of_cons; done.
Qed.

Lemma pose_list_run (d : gmap string pyval) (attrs : list string) :
  (forall a, a ∈ attrs -> d !! a = Some (value a)) ->
  RBFNode.pose_list d attrs = Ok (value <$> attrs).
Proof.
  induction attrs as [|a rest IH]; intros Hd; [reflexivity |].
  cbn [RBFNode.pose_list]. rewrite (Hd a) by left.
  rewrite IH; [done |]. intros b Hb. apply Hd. by right.
Qed.

End pose_values.

(** X21.  [getPoseValues] returns one value per driven attribute, in the order
    of [getDrivenNodeAttributes()]: for the nine translate, rotate and
    scale attributes the matching component of the decomposed matrix of the
    first driven node, for any other attribute the value of its plug on
    that node.  With [resetDriven] the driven node is reset after the
    values were taken, and the values are the same. *)
Theorem getPoseValues_spec
    (MMatrix : Type)
    (getDrivenMatrix : string -> M scene MMatrix)
    (decompMatrix :
       string -> MMatrix -> M scene (list pyval * list pyval * list pyval))
    (resetDrivenNodes : string -> M scene pyval)
    (cls : RBFNode.methods) (w w1 w2 : RBFNode.world)
    (drivenNode : string) (l attrs : list string)
    (m : MMatrix) (s3 s4 : scene)
    (tx ty tz rx ry rz sx sy sz : pyval) (other : string -> pyval) :
  RBFNode.getDrivenNode cls w = (Ok (drivenNode :: l), w1) ->
  RBFNode.getDrivenNodeAttributes cls w1 = (Ok attrs, w2) ->
  getDrivenMatrix drivenNode (RBFNode.w_scene w2) = (Ok m, s3) ->
  decompMatrix drivenNode m s3
  = (Ok ([tx; ty; tz], [rx; ry; rz], [sx; sy; sz]), s4) ->
  (forall attr,
     attr ∈ attrs ->
     attr ∉ TRANSLATE_ATTRS ++ ROTATE_ATTRS ++ SCALE_ATTRS ->
     mc.getAttr (drivenNode +:+ "." +:+ attr) s4 = (Ok (other attr), s4)) ->
  let values :=
    pose_value (tx, ty, tz) (rx, ry, rz) (sx, sy, sz) other <$> attrs in
  RBFNode.getPoseValues MMatrix getDrivenMatrix decompMatrix resetDrivenNodes
    cls false w
  = (Ok values, RBFNode.mkWorld s4 (RBFNode.w_self w2)) /\
  forall v s5,
    resetDrivenNodes drivenNode s4 = (Ok v, s5) ->
    RBFNode.getPoseValues MMatrix getDrivenMatrix decompMatrix resetDrivenNodes
      cls true w
    = (Ok values, RBFNode.mkWorld s5 (RBFNode.w_self w2)).
Proof.
  intros Hdn Hattrs Hm Hd Hread values.
  set (w4 := RBFNode.mkWorld s4 (RBFNode.w_self w2)).
  assert (Hloop := pose_loop_run tx ty tz rx ry rz sx sy sz other drivenNode w4
                     attrs (fun attr Hin => Hread attr Hin)
                     (∅ : gmap string pyval)).
  assert (Hlist : RBFNode.pose_list
            (foldl (fun d attr =>
                      <[attr := pose_value (tx, ty, tz) (rx, ry, rz)
                                  (sx, sy, sz) other attr]> d)
               (∅ : gmap string pyval) attrs) attrs
          = Ok values).
  { apply pose_list_run. intros a Ha.
    by rewrite foldl_insert_lookup, decide_True. }
  assert (Hpre : forall b : bool,
    RBFNode.getPoseValues MMatrix getDrivenMatrix decompMatrix resetDrivenNodes
      cls b w
    = (((if b then RBFNode.on_scene (resetDrivenNodes drivenNode)
         else ret PyNone) ;;;
        lift (RBFNode.pose_list
                (foldl (fun d attr =>
                          <[attr := pose_value (tx, ty, tz) (rx, ry, rz)
                                      (sx, sy, sz) other attr]> d)
                   (∅ : gmap string pyval) attrs)
                attrs)) w4)).
  { intros b. unfold RBFNode.getPoseValues.
    erewrite bind_ok by exact Hdn.
    erewrite bind_ok by reflexivity.
    erewrite bind_ok by exact Hattrs.
    erewrite bind_ok by (apply on_scene_eq; exact Hm).
    erewrite bind_ok by (apply on_scene_eq; exact Hd).
    cbv beta iota.
    erewrite (bind_ok (RBFNode.pose_loop _ _ _ _ _ _)) by exact Hloop.
    reflexivity. }
  split.
  - rewrite (Hpre false). erewrite bind_ok by reflexivity.
    unfold lift. by rewrite Hlist.
  - intros v s5 Hreset. rewrite (Hpre true).
    erewrite bind_ok by (apply on_scene_eq; exact Hreset).
    unfold lift. by rewrite Hlist.
Qed.

Lemma getPoseValues_spec_witness :
  RBFNode.getPoseValues unit (fun _ => ret tt)
    (fun _ _ => ret ([PyFloat 0; PyFloat 1; PyFloat 0],
                     [PyFloat 0; PyFloat 0; PyFloat 0],
                     [PyFloat 1; PyFloat 1; PyFloat 1]))
    (fun _ => ret PyNone) Sample.posed false
    (RBFNode.mkWorld Sample.scene0 (RBFNode.mkInstance "wd1" PyNone None))
  = (Ok [PyFloat 1; PyFloat 1],
     RBFNode.mkWorld Sample.scene0 (RBFNode.mkInstance "wd1" PyNone None)).
Proof.
  assert (Hspec := getPoseValues_spec unit (fun _ => ret tt)
            (fun _ _ => ret ([PyFloat 0; PyFloat 1; PyFloat 0],
                             [PyFloat 0; PyFloat 0; PyFloat 0],
                             [PyFloat 1; PyFloat 1; PyFloat 1]))
            (fun _ => ret PyNone) Sample.posed
            (RBFNode.mkWorld Sample.scene0
               (RBFNode.mkInstance "wd1" PyNone None))
            _ _ "wd3" [] ["translateY"; "RBF_Multiplier"]
            tt Sample.scene0 Sample.scene0
            (PyFloat 0) (PyFloat 1) (PyFloat 0)
            (PyFloat 0) (PyFloat 0) (PyFloat 0)
            (PyFloat 1) (PyFloat 1) (PyFloat 1)
            (fun _ => PyFloat 1) eq_refl eq_refl eq_refl eq_refl).
  destruct Hspec as [Hvalues _].
  - intros attr Hin Hout.
    apply elem_of_cons in Hin as [->|Hin].
    + exfalso. apply Hout. vm_compute. right. left.
    + apply list_elem_of_singleton in Hin as ->. vm_compute. reflexivity.
  - rewrite Hvalues. vm_compute. reflexivity.
Defined.
